(** * Squid SDK: route execution, parameter population and response
      normalisation.

    A shallow embedding of the decisional code of the SDK:
    - the [Squid] class (initialisation gate, transaction-request gate,
      route-parameter population, dispatch on the chain family, balance
      partitioning),
    - the EVM handler's [Utils] (balance validation, gas parameters),
    - the route normaliser [parseRoute].

    JavaScript values are modelled by [JsVal]; plain objects are finite
    maps from property names to values; thrown exceptions are values of
    [Error]; calls to collaborators (HTTP transport, chain-family
    handlers, RPC providers, token contracts) are events of a free monad
    [Prog], interpreted against an arbitrary environment by [run]. *)

From stdpp Require Import gmap strings list fin_maps pretty.

Open Scope string_scope.
Open Scope Z_scope.

#[local] Set Warnings "-clear-no-such-hyp".

(** ** JavaScript values *)

(** Numbers are restricted to integers: nothing below computes with a
    fractional number.  [toString] prints them in decimal, as JavaScript
    does for integers of magnitude below 1e21; no theorem relies on the
    text of a larger number. *)
#[warnings="-register-all"]
Inductive JsVal : Type :=
| JUndefined
| JNull
| JBool (b : bool)
| JNum (n : Z)
| JStr (s : string)
| JObj (o : gmap string JsVal).

Abbreviation JsObj := (gmap string JsVal).

(** [o.k]: a missing property reads as [undefined]. *)
Definition get (o : JsObj) (k : string) : JsVal := default JUndefined (o !! k).

(** [v.k] on an arbitrary value that is neither [undefined] nor [null]:
    primitives have none of the properties read in this code. *)
Definition getProp (v : JsVal) (k : string) : JsVal :=
  match v with
  | JObj o => get o k
  | _ => JUndefined
  end.

(** ToBoolean *)
Definition truthy (v : JsVal) : bool :=
  match v with
  | JUndefined | JNull => false
  | JBool b => b
  | JNum n => negb (n =? 0)
  | JStr s => negb (String.eqb s "")
  | JObj _ => true
  end.

(** [v === s] for a string constant [s]. *)
Definition isStr (v : JsVal) (s : string) : bool :=
  match v with
  | JStr t => String.eqb t s
  | _ => false
  end.

(** [String(v)] and template-literal interpolation. *)
Definition toString (v : JsVal) : string :=
  match v with
  | JUndefined => "undefined"
  | JNull => "null"
  | JBool true => "true"
  | JBool false => "false"
  | JNum n => pretty n
  | JStr s => s
  | JObj _ => "[object Object]"
  end.

(** ** Exceptions and results *)

Inductive Error : Type :=
| Err (message : string)         (* [throw new Error(message)] *)
| TypeError (message : string).  (* raised by the runtime *)

(** [new Error(v)]: an [undefined] argument leaves the message empty,
    any other one is converted to a string. *)
Definition newError (v : JsVal) : Error :=
  match v with
  | JUndefined => Err ""
  | _ => Err (toString v)
  end.

Inductive Result (A : Type) : Type :=
| Ok (a : A)
| Thrown (e : Error).
Arguments Ok {A} a.
Arguments Thrown {A} e.

#[export] Instance Result_ret : MRet Result := fun _ a => Ok a.
#[export] Instance Result_bind : MBind Result := fun _ _ f r =>
  match r with
  | Ok a => f a
  | Thrown e => Thrown e
  end.
#[export] Instance Result_fmap : FMap Result := fun _ _ f r =>
  match r with
  | Ok a => Ok (f a)
  | Thrown e => Thrown e
  end.

(** The error kinds of the specification are the [Error] values the code
    throws with these messages. *)
Definition NotInitializedError : Error :=
  Err "SquidSdk must be initialized! Please call the SquidSdk.init method".
Definition MissingTransactionRequestError : Error :=
  Err "transactionRequest param not found in route object".
Definition UnsupportedChainFamilyError (chainType : string) : Error :=
  Err ("Method not supported given chain type " +:+ chainType).

(** ** Chain and token metadata *)

(** A chain identifier is [string | number]. *)
Inductive ChainId : Type :=
| IdNum (n : Z)
| IdStr (s : string).

(** [String(chainId)] *)
Definition String_ (c : ChainId) : string :=
  match c with
  | IdNum n => pretty n
  | IdStr s => s
  end.

Definition InsufficientBalanceError (sender : string) (chainId : ChainId) : Error :=
  Err ("Insufficient funds for account: " +:+ sender +:+ " on chain " +:+ String_ chainId).

(** Modelled from the spec: the [ChainType] enum is declared in
    [./types], which is not part of the sources; the chain family tag
    ranges over the fixed variant set {EVM, Cosmos}.  At run time the tag
    is the string found in the metadata, so any other string can occur. *)
Module ChainType.
Definition EVM : string := "evm".
Definition COSMOS : string := "cosmos".
End ChainType.

(** Modelled from the spec: [nativeTokenConstant] comes from
    [./constants], which is not part of the sources; it is the fixed
    native-token sentinel address. *)
Definition nativeTokenConstant : string :=
  "0xEeeeeEeeeEeEeeEeEeEeeEEEeeeeEeeeeeeeEEeE".

Module ChainData.
Record t := {
  chainId : ChainId;
  chainType : string;
  rpc : string;
  nativeCurrencySymbol : string   (* [nativeCurrency.symbol] *)
}.
End ChainData.

Module Token.
Record t := {
  chainId : ChainId;
  address : string;
  symbol : string;
  decimals : Z
}.
End Token.

Module RouteRequest.
Record t := {
  fromChain : ChainId;
  toChain : ChainId;
  fromToken : string;
  toToken : string;
  fromAmount : string;
  toAddress : string;
  rest : JsObj                    (* slippage and the optional fields *)
}.
End RouteRequest.

(** ** Handles built by the ethers adapter *)

Record RpcProvider := { providerUrl : string }.
Record EvmWallet := { walletAddress : string }.

Inductive Runner : Type :=
| RunSigner (w : EvmWallet)
| RunProvider (p : RpcProvider).

Inductive Abi : Type := erc20Abi.

Record Contract := {
  contractAddress : string;
  contractAbi : Abi;
  contractRunner : Runner
}.

(** Modelled from the spec: [EthersAdapter] is not part of the sources;
    building a provider or a contract handle is local and makes no
    network call, so both are plain constructors. *)
Module EthersAdapter.
Definition rpcProvider (rpc : string) : RpcProvider := {| providerUrl := rpc |}.
Definition contract (address : string) (abi : Abi) (runner : Runner) : Contract :=
  {| contractAddress := address; contractAbi := abi; contractRunner := runner |}.
End EthersAdapter.

Module RouteParamsPopulated.
Record t := {
  params : RouteRequest.t;        (* [...params] *)
  fromChain : ChainData.t;
  toChain : ChainData.t;
  fromToken : Token.t;
  toToken : Token.t;
  fromTokenContract : option Contract;
  fromProvider : RpcProvider;
  fromIsNative : bool
}.
End RouteParamsPopulated.

(** ** Routes and the arguments of the public operations *)

Record SquidData := {
  target : JsVal;
  data : JsVal;
  value : JsVal;
  gasLimit : JsVal;
  gasPrice : JsVal;
  maxPriorityFeePerGas : JsVal;
  maxFeePerGas : JsVal
}.

Module Route.
Record t := {
  estimate : JsVal;
  transactionRequest : option SquidData;  (* [None]: absent *)
  params : RouteRequest.t
}.
End Route.

Module ExecuteRoute.
Record t := {
  signer : option EvmWallet;
  route : Route.t;
  executionSettings : JsVal;
  overrides : option JsObj
}.
End ExecuteRoute.

(** [Omit<ExecuteRoute, "signer"> & { nonce: number }] *)
Module RawTxRequest.
Record t := {
  route : Route.t;
  nonce : Z;
  executionSettings : JsVal;
  overrides : option JsObj
}.
End RawTxRequest.

Module GetStatus.
Record t := {
  transactionId : string;
  requestId : JsVal;
  integratorId : JsVal
}.
End GetStatus.

Record CosmosAddress := {
  coinType : Z;
  cosmosChainId : string;
  cosmosAddress : string
}.

Record TokenBalance := {
  balanceToken : Token.t;
  balanceAmount : Z
}.

Record CosmosBalance := {
  cosmosDenom : string;
  cosmosAmount : Z;
  cosmosBalanceChainId : string
}.

(** ** The HTTP transport *)

(** Modelled from the spec: [HttpAdapter] is not part of the sources; it
    is a thin request/response adapter, kept here as the options it was
    built from.  Its requests are events (below). *)
Module HttpAdapter.
Record t := {
  baseUrl : string;
  commonHeaders : option JsObj;   (* [axios.defaults.headers.common] *)
  timeout : option Z
}.
End HttpAdapter.

Module HttpResponse.
Record t := {
  data : JsObj;
  headers : option JsObj;
  status : Z
}.
End HttpResponse.

Module SdkInfo.
Record t := {
  tokens : list Token.t;
  chains : list ChainData.t;
  isInMaintenanceMode : bool;
  maintenanceMessage : option string;
  axlScanUrl : option string
}.
End SdkInfo.

Module SdkInfoResponse.
Record t := {
  data : SdkInfo.t;
  status : Z
}.
End SdkInfoResponse.

Record Approval := {
  isApproved : bool;
  message : string
}.

(** ** Calls to collaborators *)

(** Every call that leaves the modelled code is an event: the transport,
    the two chain-family handlers, the RPC provider and the token
    contract.  The index is the type of the answer. *)
Inductive Event : Type -> Type :=
| HttpGet (http : HttpAdapter.t) (path : string) : Event SdkInfoResponse.t
| HttpPost (http : HttpAdapter.t) (path : string) (body : RouteRequest.t)
    : Event HttpResponse.t
| AxiosGet (http : HttpAdapter.t) (path : string) (params : GetStatus.t)
    (headers : JsObj) : Event HttpResponse.t
| EvmExecuteRoute (data : ExecuteRoute.t) (params : RouteParamsPopulated.t)
    : Event JsVal
| CosmosExecuteRoute (data : ExecuteRoute.t) (params : RouteParamsPopulated.t)
    : Event JsVal
| EvmIsRouteApproved (sender : string) (params : RouteParamsPopulated.t)
    (target : JsVal) : Event Approval
| EvmApproveRoute (data : ExecuteRoute.t) (params : RouteParamsPopulated.t)
    : Event bool
| EvmGetRawTxHex (data : RawTxRequest.t) : Event string
| EvmGetBalances (tokens : list Token.t) (userAddress : string)
    (chainRpcUrls : gmap string string) : Event (list TokenBalance)
| CosmosGetBalances (addresses : list CosmosAddress)
    (cosmosChains : list ChainData.t) : Event (list CosmosBalance)
| ProviderGetBalance (provider : RpcProvider) (sender : string) : Event Z
| ContractBalanceOf (c : Contract) (sender : string) : Event Z
| ContractSymbol (c : Contract) : Event string.

Inductive Handler : Type := evm | cosmos.

(** The chain-family handler an event calls, if it calls one. *)
Definition handlerOf {X} (ev : Event X) : option Handler :=
  match ev with
  | EvmExecuteRoute _ _ | EvmIsRouteApproved _ _ _ | EvmApproveRoute _ _
  | EvmGetRawTxHex _ | EvmGetBalances _ _ _ => Some evm
  | CosmosExecuteRoute _ _ | CosmosGetBalances _ _ => Some cosmos
  | _ => None
  end.

(** A program: it returns, throws, or calls a collaborator and goes on
    with the answer. *)
Inductive Prog (R : Type) : Type :=
| Ret (r : R)
| Throw (e : Error)
| Vis {X : Type} (ev : Event X) (k : X -> Prog R).
Arguments Ret {R} r.
Arguments Throw {R} e.
Arguments Vis {R X} ev k.

Fixpoint bind {A B} (p : Prog A) (f : A -> Prog B) : Prog B :=
  match p with
  | Ret a => f a
  | Throw e => Throw e
  | Vis ev k => Vis ev (fun x => bind (k x) f)
  end.

#[export] Instance Prog_ret : MRet Prog := fun _ a => Ret a.
#[export] Instance Prog_bind : MBind Prog := fun _ _ f p => bind p f.

(** [await collaborator.call(...)] *)
Definition call {X} (ev : Event X) : Prog X := Vis ev Ret.

(** A synchronous step that may throw. *)
Definition lift {A} (r : Result A) : Prog A :=
  match r with
  | Ok a => Ret a
  | Thrown e => Throw e
  end.

(** The environment answers every call, or makes it fail. *)
Definition Env : Type := forall X, Event X -> Result X.

Inductive Logged : Type :=
| Log {X} (ev : Event X).

Definition loggedHandler (l : Logged) : option Handler :=
  match l with Log ev => handlerOf ev end.

(** Running a program: the calls made, in order, and the outcome.  No
    exception is caught anywhere in the modelled code, so a failing call
    ends the run. *)
Fixpoint run {R} (env : Env) (p : Prog R) : list Logged * Result R :=
  match p with
  | Ret r => ([], Ok r)
  | Throw e => ([], Thrown e)
  | Vis ev k =>
      match env _ ev with
      | Ok x => let '(tr, r) := run env (k x) in (Log ev :: tr, r)
      | Thrown e => ([Log ev], Thrown e)
      end
  end.

(** The handlers a run invoked. *)
Definition handlersInvoked {R} (env : Env) (p : Prog R) : list Handler :=
  omap loggedHandler (run env p).1.

(** ** The EVM handler's [Utils] *)

Module Utils.

Definition validateNativeBalance (fromProvider : RpcProvider) (sender : string)
    (amount : Z) (fromChain : ChainData.t) : Prog Approval :=
  balance ← call (ProviderGetBalance fromProvider sender);
  if amount >? balance
  then Throw (Err ("Insufficient funds for account: " +:+ sender +:+
                   " on chain " +:+ String_ (ChainData.chainId fromChain)))
  else Ret {| isApproved := true;
              message := "User has the expected balance " +:+ pretty amount +:+
                         " of " +:+ ChainData.nativeCurrencySymbol fromChain |}.

Definition validateTokenBalance (amount : Z) (fromTokenContract : Contract)
    (sender : string) (fromChain : ChainData.t) : Prog Approval :=
  balance ← call (ContractBalanceOf fromTokenContract sender);
  if amount >? balance
  then Throw (Err ("Insufficient funds for account: " +:+ sender +:+
                   " on chain " +:+ String_ (ChainData.chainId fromChain)))
  else
    symbol ← call (ContractSymbol fromTokenContract);
    Ret {| isApproved := true;
           message := "User has approved Squid to use " +:+ pretty amount +:+
                      " of " +:+ symbol |}.

(** [overrides] is [None] for [undefined]; an object, even an empty
    one, is truthy.  [{...a, ...b}] is the union in which [b] wins. *)
Definition getGasData (transactionRequest : SquidData)
    (overrides : option JsObj) : JsObj :=
  let gasParams : JsObj :=
    if truthy (maxPriorityFeePerGas transactionRequest)
    then {[ "gasLimit" := gasLimit transactionRequest;
            "maxPriorityFeePerGas" := maxPriorityFeePerGas transactionRequest;
            "maxFeePerGas" := maxFeePerGas transactionRequest ]}
    else {[ "gasLimit" := gasLimit transactionRequest;
            "gasPrice" := gasPrice transactionRequest ]} in
  match overrides with
  | Some o => o ∪ gasParams
  | None => gasParams
  end.

End Utils.

(** ** Collaborators of the [Squid] class that are not in the sources *)

(** The base class [TokensChains]: lookups in the metadata loaded by
    [init], which throw when they miss. *)
Class TokensChains := {
  getChainData : list Token.t -> list ChainData.t -> ChainId -> Result ChainData.t;
  getTokenData : list Token.t -> list ChainData.t -> string -> ChainId -> Result Token.t
}.

(** The helpers of [./utils/evm] and [./utils/cosmos]. *)
Class ChainUtils := {
  getChainRpcUrls : list ChainData.t -> gmap string string;
  getEvmTokensForChainIds : list ChainId -> list Token.t -> list Token.t;
  getCosmosChainsForChainIds : list ChainId -> list ChainData.t -> list ChainData.t
}.

(** [headers && k in headers ? headers[k] : undefined] *)
Definition headerOf (headers : option JsObj) (k : string) : JsVal :=
  match headers with
  | Some h => match h !! k with Some v => v | None => JUndefined end
  | None => JUndefined
  end.

(** [...(v && { k: v })]: nothing is spread from a falsy value. *)
Definition spreadIf (v : JsVal) (k : string) : JsObj :=
  if truthy v then {[ k := v ]} else ∅.

(** ** The [Squid] class *)

(** The constructor and [setConfig] only build the HTTP adapter and keep
    the configuration; they are left out.  A constructed SDK has
    [initialized = false]. *)

Module Squid.

Record t := {
  httpInstance : HttpAdapter.t;
  initialized : bool;
  isInMaintenanceMode : bool;
  maintenanceMessage : option string;
  axelarscanURL : option string;
  tokens : list Token.t;          (* inherited from [TokensChains] *)
  chains : list ChainData.t       (* inherited from [TokensChains] *)
}.

Record Balances := {
  evmBalances : list TokenBalance;
  cosmosBalances : list CosmosBalance
}.

Section Operations.
Context `{TokensChains} `{ChainUtils}.

Definition init (this : t) : Prog t :=
  response ← call (HttpGet (httpInstance this) "v2/sdk-info");
  if negb (SdkInfoResponse.status response =? 200)
  then Throw (Err "SDK initialization failed")
  else
    let d := SdkInfoResponse.data response in
    Ret {| httpInstance := httpInstance this;
           tokens := SdkInfo.tokens d;
           chains := SdkInfo.chains d;
           isInMaintenanceMode := SdkInfo.isInMaintenanceMode d;
           maintenanceMessage := SdkInfo.maintenanceMessage d;
           axelarscanURL := SdkInfo.axlScanUrl d;
           initialized := true |}.

(** *** Internal methods *)

Definition validateInit (this : t) : Result unit :=
  if negb (initialized this)
  then Thrown (Err "SquidSdk must be initialized! Please call the SquidSdk.init method")
  else Ok tt.

Definition validateTransactionRequest (route : Route.t) : Result unit :=
  match Route.transactionRequest route with
  | None => Thrown (Err "transactionRequest param not found in route object")
  | Some _ => Ok tt
  end.

Definition populateRouteParams (this : t) (params : RouteRequest.t)
    (signer : option EvmWallet) : Result RouteParamsPopulated.t :=
  let fromChain := RouteRequest.fromChain params in
  let toChain := RouteRequest.toChain params in
  let fromToken := RouteRequest.fromToken params in
  let toToken := RouteRequest.toToken params in
  _fromChain ← getChainData (tokens this) (chains this) fromChain;
  _toChain ← getChainData (tokens this) (chains this) toChain;
  _fromToken ← getTokenData (tokens this) (chains this) fromToken fromChain;
  _toToken ← getTokenData (tokens this) (chains this) toToken toChain;
  let fromProvider := EthersAdapter.rpcProvider (ChainData.rpc _fromChain) in
  let fromIsNative := String.eqb (Token.address _fromToken) nativeTokenConstant in
  let fromTokenContract :=
    if negb fromIsNative
    then Some (EthersAdapter.contract (Token.address _fromToken) erc20Abi
                 (match signer with
                  | Some w => RunSigner w
                  | None => RunProvider fromProvider
                  end))
    else None in
  mret {| RouteParamsPopulated.params := params;
          RouteParamsPopulated.fromChain := _fromChain;
          RouteParamsPopulated.toChain := _toChain;
          RouteParamsPopulated.fromToken := _fromToken;
          RouteParamsPopulated.toToken := _toToken;
          RouteParamsPopulated.fromTokenContract := fromTokenContract;
          RouteParamsPopulated.fromProvider := fromProvider;
          RouteParamsPopulated.fromIsNative := fromIsNative |}.

(** *** Public methods *)

Definition getStatus (this : t) (params : GetStatus.t) : Prog JsObj :=
  let http := httpInstance this in
  response ← call (AxiosGet http "/v1/status" params
    (spreadIf (GetStatus.integratorId params) "x-integrator-id" ∪
     (spreadIf (GetStatus.requestId params) "x-request-id" ∪
      default ∅ (HttpAdapter.commonHeaders http))));
  let data := HttpResponse.data response in
  let headers := HttpResponse.headers response in
  let requestId := headerOf headers "x-request-id" in
  let integratorId := headerOf headers "x-integrator-id" in
  Ret (<["integratorId" := integratorId]> (<["requestId" := requestId]> data)).

Definition getRoute (this : t) (params : RouteRequest.t) : Prog JsObj :=
  lift (validateInit this);;
  response ← call (HttpPost (httpInstance this) "v2/route" params);
  let data := HttpResponse.data response in
  let headers := HttpResponse.headers response in
  if negb (HttpResponse.status response =? 200)
  then Throw (newError (get data "error"))
  else
    let requestId := headerOf headers "x-request-id" in
    let integratorId := headerOf headers "x-integrator-id" in
    Ret (<["integratorId" := integratorId]> (<["requestId" := requestId]> data)).

Definition executeRoute (this : t) (data : ExecuteRoute.t) : Prog JsVal :=
  lift (validateInit this);;
  lift (validateTransactionRequest (ExecuteRoute.route data));;
  params ← lift (populateRouteParams this
                   (Route.params (ExecuteRoute.route data))
                   (ExecuteRoute.signer data));
  let chainType := ChainData.chainType (RouteParamsPopulated.fromChain params) in
  if String.eqb chainType ChainType.EVM
  then call (EvmExecuteRoute data params)
  else if String.eqb chainType ChainType.COSMOS
  then call (CosmosExecuteRoute data params)
  else Throw (Err ("Method not supported given chain type " +:+ chainType)).

Definition isRouteApproved (this : t) (route : Route.t) (sender : string)
    : Prog Approval :=
  lift (validateInit this);;
  lift (validateTransactionRequest route);;
  params ← lift (populateRouteParams this (Route.params route) None);
  let chainType := ChainData.chainType (RouteParamsPopulated.fromChain params) in
  if String.eqb chainType ChainType.EVM
  then
    match Route.transactionRequest route with
    | Some transactionRequest =>
        call (EvmIsRouteApproved sender params (target transactionRequest))
    | None => Throw (TypeError "Cannot read properties of undefined (reading 'target')")
    end
  else Throw (Err ("Method not supported given chain type " +:+ chainType)).

Definition approveRoute (this : t) (data : ExecuteRoute.t) : Prog bool :=
  lift (validateInit this);;
  lift (validateTransactionRequest (ExecuteRoute.route data));;
  params ← lift (populateRouteParams this
                   (Route.params (ExecuteRoute.route data))
                   (ExecuteRoute.signer data));
  let chainType := ChainData.chainType (RouteParamsPopulated.fromChain params) in
  if String.eqb chainType ChainType.EVM
  then call (EvmApproveRoute data params)
  else Throw (Err ("Method not supported given chain type " +:+ chainType)).

Definition getRawTxHex (this : t) (data : RawTxRequest.t) : Prog string :=
  lift (validateInit this);;
  lift (validateTransactionRequest (RawTxRequest.route data));;
  call (EvmGetRawTxHex data).

Definition getEvmBalances (this : t) (userAddress : string)
    (chains_ : list ChainId) : Prog (list TokenBalance) :=
  let chainRpcUrls := getChainRpcUrls (chains this) in
  let tokens_ := getEvmTokensForChainIds chains_ (tokens this) in
  call (EvmGetBalances tokens_ userAddress chainRpcUrls).

Definition getCosmosBalances (this : t) (addresses : list CosmosAddress)
    (chainIds : list ChainId) : Prog (list CosmosBalance) :=
  let cosmosChains := getCosmosChainsForChainIds chainIds (chains this) in
  call (CosmosGetBalances addresses cosmosChains).

(** The callback of the [reduce] in [getAllBalances]: index 0 of the
    accumulator collects the EVM chain identifiers, index 1 the Cosmos
    ones. *)
Definition classifyChain (normalizedChainIds : list string)
    (cosmosAndEvmChains : list ChainId * list ChainId) (chain : ChainData.t)
    : list ChainId * list ChainId :=
  if negb (bool_decide (String_ (ChainData.chainId chain) ∈ normalizedChainIds))
  then cosmosAndEvmChains
  else if String.eqb (ChainData.chainType chain) ChainType.COSMOS
  then (cosmosAndEvmChains.1,
        (cosmosAndEvmChains.2 ++ [ChainData.chainId chain])%list)
  else ((cosmosAndEvmChains.1 ++ [ChainData.chainId chain])%list,
        cosmosAndEvmChains.2).

(** The [reduce] itself: [(evmChainIds, cosmosChainIds)]. *)
Definition chainIdsByFamily (chains_ : list ChainData.t)
    (normalizedChainIds : list string) : list ChainId * list ChainId :=
  fold_left (classifyChain normalizedChainIds) chains_ ([], []).

(** [chainIds] defaults to the empty list; [cosmosAddresses] is [None]
    when absent; an absent or empty [evmAddress] is falsy. *)
Definition getAllBalances (this : t) (chainIds : option (list ChainId))
    (cosmosAddresses : option (list CosmosAddress))
    (evmAddress : option string) : Prog Balances :=
  let normalizedChainIds := String_ <$> default [] chainIds in
  let '(evmChainIds, cosmosChainIds) :=
    chainIdsByFamily (chains this) normalizedChainIds in
  evmBalances_ ←
    match evmAddress with
    | Some a => if negb (String.eqb a "")
                then getEvmBalances this a evmChainIds
                else Ret []
    | None => Ret []
    end;
  cosmosBalances_ ←
    match cosmosAddresses with
    | Some a => getCosmosBalances this a cosmosChainIds
    | None => Ret []
    end;
  Ret {| evmBalances := evmBalances_; cosmosBalances := cosmosBalances_ |}.

End Operations.

End Squid.

(** ** The route normaliser ([v1/route.ts]) *)

(** Modelled from the spec: the [CallType] enum is declared in
    [../../types], which is not part of the sources; the discriminator
    tags of a call are Bridge, Swap and Custom. *)
Module CallType.
Definition BRIDGE : string := "BRIDGE".
Definition SWAP : string := "SWAP".
Definition CUSTOM : string := "CUSTOM".
End CallType.

(** Destructuring [const { ... } = v] throws on [undefined] and [null]. *)
Definition destructure (v : JsVal) : Result JsVal :=
  match v with
  | JUndefined => Thrown (TypeError "Cannot destructure 'undefined' as it is undefined.")
  | JNull => Thrown (TypeError "Cannot destructure 'null' as it is null.")
  | _ => Ok v
  end.

Section RouteParser.

(** [removeEmpty] comes from [./util], which is not part of the
    sources; nothing below depends on what it removes. *)
Variable removeEmpty : JsObj -> JsObj.

Definition parseBridge (data : JsObj) : JsObj :=
  {[ "type" := JStr CallType.BRIDGE;
     "fromToken" := get data "fromToken";
     "toToken" := get data "toToken";
     "fromAmount" := get data "fromAmount";
     "toAmount" := get data "toAmount";
     "toAmountMin" := get data "toAmountMin";
     "exchangeRate" := get data "exchangeRate";
     "priceImpact" := get data "priceImpact" ]}.

Definition parseSwap (data : JsObj) : Result JsObj :=
  dex ← destructure (get data "dex");
  mret (removeEmpty
    {[ "type" := get data "type";
       "dex" := JObj {[ "chainName" := getProp dex "chainName";
                        "dexName" := getProp dex "dexName";
                        "factory" := getProp dex "factory";
                        "isStable" := getProp dex "isStable";
                        "swapRouter" := getProp dex "swapRouter" ]};
       "squidCallType" := get data "squidCallType";
       "path" := get data "path";
       "fromToken" := get data "fromToken";
       "toToken" := get data "toToken";
       "fromAmount" := get data "fromAmount";
       "toAmount" := get data "toAmount";
       "toAmountMin" := get data "toAmountMin";
       "exchangeRate" := get data "exchangeRate";
       "priceImpact" := get data "priceImpact";
       "dynamicSlippage" := get data "dynamicSlippage" ]}).

Definition parseCustom (data : JsObj) : JsObj :=
  removeEmpty
    {[ "type" := get data "type";
       "callType" := get data "callType";
       "target" := get data "target";
       "value" := get data "value";
       "callData" := get data "callData";
       "estimatedGas" := get data "estimatedGas";
       "payload" := get data "payload" ]}.

(** The predicate of the [filter] in [parseRoute]. *)
Definition isRetained (call : JsObj) : bool :=
  existsb (isStr (get call "type"))
    [CallType.BRIDGE; CallType.CUSTOM; CallType.SWAP].

(** The callback of the [map] in [parseRoute]; a [switch] that matches
    no case returns [undefined]. *)
Definition parseCall (call : JsObj) : Result JsVal :=
  let type := get call "type" in
  if isStr type CallType.BRIDGE then Ok (JObj (parseBridge call))
  else if isStr type CallType.SWAP then JObj <$> parseSwap call
  else if isStr type CallType.CUSTOM then Ok (JObj (parseCustom call))
  else Ok JUndefined.

Definition parseRoute (data : list JsObj) : Result (list JsVal) :=
  let calls := mapM parseCall (List.filter isRetained data) in
  calls.

End RouteParser.

(** ** The public operations, as one type *)

(** A call of a public method of [Squid], with its arguments.
    [getTokenPrice] and [getFromAmount] compute with floating-point
    prices and are left out. *)
Inductive PublicCall : Type :=
| CallGetStatus (params : GetStatus.t)
| CallGetRoute (params : RouteRequest.t)
| CallExecuteRoute (data : ExecuteRoute.t)
| CallIsRouteApproved (route : Route.t) (sender : string)
| CallApproveRoute (data : ExecuteRoute.t)
| CallGetRawTxHex (data : RawTxRequest.t)
| CallGetEvmBalances (userAddress : string) (chains : list ChainId)
| CallGetCosmosBalances (addresses : list CosmosAddress) (chainIds : list ChainId)
| CallGetAllBalances (chainIds : option (list ChainId))
    (cosmosAddresses : option (list CosmosAddress)) (evmAddress : option string).

(** What a run shows from outside: the calls made and, if the program
    threw, the exception. *)
Definition observe {R} (x : list Logged * Result R) : list Logged * option Error :=
  (x.1, match x.2 with Ok _ => None | Thrown e => Some e end).

Definition runCall `{TokensChains} `{ChainUtils}
    (env : Env) (this : Squid.t) (c : PublicCall) : list Logged * option Error :=
  match c with
  | CallGetStatus params => observe (run env (Squid.getStatus this params))
  | CallGetRoute params => observe (run env (Squid.getRoute this params))
  | CallExecuteRoute data => observe (run env (Squid.executeRoute this data))
  | CallIsRouteApproved route sender =>
      observe (run env (Squid.isRouteApproved this route sender))
  | CallApproveRoute data => observe (run env (Squid.approveRoute this data))
  | CallGetRawTxHex data => observe (run env (Squid.getRawTxHex this data))
  | CallGetEvmBalances a cs => observe (run env (Squid.getEvmBalances this a cs))
  | CallGetCosmosBalances a cs => observe (run env (Squid.getCosmosBalances this a cs))
  | CallGetAllBalances cs ca ea => observe (run env (Squid.getAllBalances this cs ca ea))
  end.

(** The operation failed with [e] before doing anything else: no call
    was made, to a handler or to anything. *)
Definition failedAtOnce (e : Error) (x : list Logged * option Error) : Prop :=
  x = ([], Some e).

(** The SDK with its [initialized] flag set to [b] and everything else as
    it is. *)
Definition withInitialized (b : bool) (this : Squid.t) : Squid.t :=
  {| Squid.httpInstance := Squid.httpInstance this;
     Squid.initialized := b;
     Squid.isInMaintenanceMode := Squid.isInMaintenanceMode this;
     Squid.maintenanceMessage := Squid.maintenanceMessage this;
     Squid.axelarscanURL := Squid.axelarscanURL this;
     Squid.tokens := Squid.tokens this;
     Squid.chains := Squid.chains this |}.

(** The operations whose body starts with [this.validateInit()]. *)
Definition validatesInit (c : PublicCall) : bool :=
  match c with
  | CallGetRoute _ | CallExecuteRoute _ | CallIsRouteApproved _ _
  | CallApproveRoute _ | CallGetRawTxHex _ => true
  | _ => false
  end.

(** The route of the four operations that take one. *)
Definition routeOf (c : PublicCall) : option Route.t :=
  match c with
  | CallExecuteRoute data | CallApproveRoute data => Some (ExecuteRoute.route data)
  | CallIsRouteApproved route _ => Some route
  | CallGetRawTxHex data => Some (RawTxRequest.route data)
  | _ => None
  end.

(** ** A metadata store and sample data *)

Definition sameChainId (a b : ChainId) : bool := String.eqb (String_ a) (String_ b).

(** Modelled from the spec: the [TokensChains] base class is not part of
    the sources.  The metadata store provides lookup by chain identifier
    and by token address on a chain, and a lookup that misses fails with
    a not-found error. *)
Definition metadataStore : TokensChains := {|
  getChainData _ chains id :=
    match List.find (fun c => sameChainId (ChainData.chainId c) id) chains with
    | Some c => Ok c
    | None => Thrown (Err ("Could not find chain with " +:+ String_ id))
    end;
  getTokenData tokens _ address id :=
    match List.find (fun t => String.eqb (Token.address t) address &&
                              sameChainId (Token.chainId t) id) tokens with
    | Some t => Ok t
    | None => Thrown (Err ("Could not find token with address " +:+ address +:+
                           " on chain " +:+ String_ id))
    end
|}.

(** Sample helpers: tokens and Cosmos chains of the requested chains. *)
Definition sampleChainUtils : ChainUtils := {|
  getChainRpcUrls chains :=
    list_to_map ((fun c => (String_ (ChainData.chainId c), ChainData.rpc c)) <$> chains);
  getEvmTokensForChainIds ids tokens :=
    List.filter (fun t => existsb (sameChainId (Token.chainId t)) ids) tokens;
  getCosmosChainsForChainIds ids chains :=
    List.filter (fun c => String.eqb (ChainData.chainType c) ChainType.COSMOS &&
                          existsb (sameChainId (ChainData.chainId c)) ids) chains
|}.

Module Sample.

Definition ethereum : ChainData.t :=
  {| ChainData.chainId := IdNum 1; ChainData.chainType := "evm";
     ChainData.rpc := "https://eth.example"; ChainData.nativeCurrencySymbol := "ETH" |}.
Definition osmosis : ChainData.t :=
  {| ChainData.chainId := IdStr "osmosis-1"; ChainData.chainType := "cosmos";
     ChainData.rpc := "https://osmo.example"; ChainData.nativeCurrencySymbol := "OSMO" |}.
Definition solana : ChainData.t :=
  {| ChainData.chainId := IdStr "solana"; ChainData.chainType := "svm";
     ChainData.rpc := "https://sol.example"; ChainData.nativeCurrencySymbol := "SOL" |}.

Definition eth : Token.t :=
  {| Token.chainId := IdNum 1; Token.address := nativeTokenConstant;
     Token.symbol := "ETH"; Token.decimals := 18 |}.
Definition usdc : Token.t :=
  {| Token.chainId := IdNum 1; Token.address := "0xA0b8";
     Token.symbol := "USDC"; Token.decimals := 6 |}.
Definition osmo : Token.t :=
  {| Token.chainId := IdStr "osmosis-1"; Token.address := "uosmo";
     Token.symbol := "OSMO"; Token.decimals := 6 |}.
Definition sol : Token.t :=
  {| Token.chainId := IdStr "solana"; Token.address := "sol";
     Token.symbol := "SOL"; Token.decimals := 9 |}.

Definition http : HttpAdapter.t :=
  {| HttpAdapter.baseUrl := "https://testnet.api.squidrouter.com/";
     HttpAdapter.commonHeaders := Some {[ "x-integrator-id" := JStr "app" ]};
     HttpAdapter.timeout := None |}.

(** The SDK before [init]: [initialized] is [false] and no metadata
    is loaded. *)
Definition fresh : Squid.t :=
  {| Squid.httpInstance := http; Squid.initialized := false;
     Squid.isInMaintenanceMode := false; Squid.maintenanceMessage := None;
     Squid.axelarscanURL := None; Squid.tokens := []; Squid.chains := [] |}.

Definition sdkInfo : SdkInfoResponse.t :=
  {| SdkInfoResponse.status := 200;
     SdkInfoResponse.data :=
       {| SdkInfo.tokens := [eth; usdc; osmo; sol];
          SdkInfo.chains := [ethereum; osmosis; solana];
          SdkInfo.isInMaintenanceMode := false;
          SdkInfo.maintenanceMessage := None;
          SdkInfo.axlScanUrl := Some "https://axelarscan.example" |} |}.

(** The SDK after [init] received [sdkInfo]. *)
Definition ready : Squid.t :=
  {| Squid.httpInstance := http; Squid.initialized := true;
     Squid.isInMaintenanceMode := false; Squid.maintenanceMessage := None;
     Squid.axelarscanURL := Some "https://axelarscan.example";
     Squid.tokens := [eth; usdc; osmo; sol];
     Squid.chains := [ethereum; osmosis; solana] |}.

Definition request (fromChain : ChainId) (fromToken : string) : RouteRequest.t :=
  {| RouteRequest.fromChain := fromChain; RouteRequest.toChain := IdNum 1;
     RouteRequest.fromToken := fromToken; RouteRequest.toToken := nativeTokenConstant;
     RouteRequest.fromAmount := "1000"; RouteRequest.toAddress := "0xBob";
     RouteRequest.rest := {[ "slippage" := JNum 1 ]} |}.

Definition legacyTx : SquidData :=
  {| target := JStr "0xRouter"; data := JStr "0x00"; value := JStr "0";
     gasLimit := JStr "500000"; gasPrice := JStr "30";
     maxPriorityFeePerGas := JUndefined; maxFeePerGas := JUndefined |}.

Definition feeMarketTx : SquidData :=
  {| target := JStr "0xRouter"; data := JStr "0x00"; value := JStr "0";
     gasLimit := JStr "500000"; gasPrice := JStr "30";
     maxPriorityFeePerGas := JStr "2"; maxFeePerGas := JStr "40" |}.

Definition route (tx : option SquidData) (fromChain : ChainId) (fromToken : string)
    : Route.t :=
  {| Route.estimate := JUndefined; Route.transactionRequest := tx;
     Route.params := request fromChain fromToken |}.

Definition alice : EvmWallet := {| walletAddress := "0xAlice" |}.

Definition execute (r : Route.t) : ExecuteRoute.t :=
  {| ExecuteRoute.signer := Some alice; ExecuteRoute.route := r;
     ExecuteRoute.executionSettings := JUndefined; ExecuteRoute.overrides := None |}.

Definition rawTx (r : Route.t) : RawTxRequest.t :=
  {| RawTxRequest.route := r; RawTxRequest.nonce := 7;
     RawTxRequest.executionSettings := JUndefined; RawTxRequest.overrides := None |}.

(** What the resolver returns on [ready] for a route from [fromToken] on
    [fromChain], with [alice] as signer. *)
Definition populated (fromChain : ChainData.t) (fromToken : Token.t) (native : bool)
    : RouteParamsPopulated.t :=
  {| RouteParamsPopulated.params :=
       request (ChainData.chainId fromChain) (Token.address fromToken);
     RouteParamsPopulated.fromChain := fromChain;
     RouteParamsPopulated.toChain := ethereum;
     RouteParamsPopulated.fromToken := fromToken;
     RouteParamsPopulated.toToken := eth;
     RouteParamsPopulated.fromTokenContract :=
       if native then None
       else Some {| contractAddress := Token.address fromToken;
                    contractAbi := erc20Abi;
                    contractRunner := RunSigner alice |};
     RouteParamsPopulated.fromProvider := {| providerUrl := ChainData.rpc fromChain |};
     RouteParamsPopulated.fromIsNative := native |}.

Definition status : GetStatus.t :=
  {| GetStatus.transactionId := "0xabc"; GetStatus.requestId := JUndefined;
     GetStatus.integratorId := JUndefined |}.

End Sample.

(** ** Dispatching operations *)

(** The route and signer from which a dispatching operation resolves its
    parameters.  [getRawTxHex] resolves nothing and is not one of them. *)
Definition dispatchArgs (c : PublicCall) : option (Route.t * option EvmWallet) :=
  match c with
  | CallExecuteRoute data | CallApproveRoute data =>
      Some (ExecuteRoute.route data, ExecuteRoute.signer data)
  | CallIsRouteApproved route _ => Some (route, None)
  | _ => None
  end.

(** Both validations pass and the resolver returns [params]. *)
Definition resolvesTo `{TokensChains} (this : Squid.t) (c : PublicCall)
    (params : RouteParamsPopulated.t) : Prop :=
  Squid.initialized this = true ∧
  ∃ route signer,
    dispatchArgs c = Some (route, signer) ∧
    is_Some (Route.transactionRequest route) ∧
    Squid.populateRouteParams this (Route.params route) signer = Ok params.

Definition sameOperation (c1 c2 : PublicCall) : bool :=
  match c1, c2 with
  | CallExecuteRoute _, CallExecuteRoute _
  | CallIsRouteApproved _ _, CallIsRouteApproved _ _
  | CallApproveRoute _, CallApproveRoute _ => true
  | _, _ => false
  end.

(** The handlers an observed run invoked, in order. *)
Definition handlersOf (x : list Logged * option Error) : list Handler :=
  omap loggedHandler x.1.

(** The dispatch rule as a table, to be compared with the [switch]
    statements: the handler an operation hands a resolved chain family
    to, or [None] where the [switch] falls to its [default]. *)
Definition handlerFor (c : PublicCall) (chainType : string) : option Handler :=
  match c with
  | CallExecuteRoute _ =>
      if String.eqb chainType ChainType.EVM then Some evm
      else if String.eqb chainType ChainType.COSMOS then Some cosmos
      else None
  | CallIsRouteApproved _ _ | CallApproveRoute _ =>
      if String.eqb chainType ChainType.EVM then Some evm else None
  | _ => None
  end.

Definition resolvedChainType (params : RouteParamsPopulated.t) : string :=
  ChainData.chainType (RouteParamsPopulated.fromChain params).

(** ** Sample environments *)

Module SampleEnv.

Definition okResponse : HttpResponse.t :=
  {| HttpResponse.data := {[ "route" := JNull ]};
     HttpResponse.headers := Some {[ "x-request-id" := JStr "r-1" ]};
     HttpResponse.status := 200 |}.

(** Every collaborator answers; a balance query answers [balance], the
    routing service answers [response]. *)
Definition answering (balance : Z) (response : HttpResponse.t) : Env :=
  fun X ev =>
    match ev in Event X return Result X with
    | HttpGet _ _ => Ok Sample.sdkInfo
    | HttpPost _ _ _ => Ok response
    | AxiosGet _ _ _ _ => Ok okResponse
    | EvmExecuteRoute _ _ => Ok (JStr "0xtxhash")
    | CosmosExecuteRoute _ _ => Ok (JStr "cosmos-tx")
    | EvmIsRouteApproved _ _ _ => Ok {| isApproved := true; message := "ok" |}
    | EvmApproveRoute _ _ => Ok true
    | EvmGetRawTxHex _ => Ok "0xf86c"
    | EvmGetBalances _ _ _ => Ok []
    | CosmosGetBalances _ _ => Ok []
    | ProviderGetBalance _ _ => Ok balance
    | ContractBalanceOf _ _ => Ok balance
    | ContractSymbol _ => Ok "USDC"
    end.

Definition slippageTooHigh : HttpResponse.t :=
  {| HttpResponse.data := {[ "error" := JStr "slippage too high" ]};
     HttpResponse.headers := None;
     HttpResponse.status := 400 |}.

End SampleEnv.

(** A sample [removeEmpty]: it drops the properties that are
    [undefined]. *)
Definition isUndefined (v : JsVal) : bool :=
  match v with JUndefined => true | _ => false end.

Definition dropUndefined (o : JsObj) : JsObj :=
  filter (λ kv, isUndefined kv.2 = false) o.

Module SampleCalls.

Definition bridge : JsObj :=
  {[ "type" := JStr "BRIDGE"; "fromAmount" := JStr "1000"; "toAmount" := JStr "990" ]}.
Definition swap : JsObj :=
  {[ "type" := JStr "SWAP"; "dex" := JObj {[ "dexName" := JStr "UniswapV2" ]};
     "fromAmount" := JStr "990" ]}.
Definition fee : JsObj :=
  {[ "type" := JStr "FEE"; "amount" := JStr "3" ]}.
Definition custom : JsObj :=
  {[ "type" := JStr "CUSTOM"; "callType" := JNum 0; "target" := JStr "0xPool" ]}.
Definition untagged : JsObj :=
  {[ "fromAmount" := JStr "1" ]}.

Definition raw : list JsObj := [bridge; fee; swap; untagged; custom].

End SampleCalls.

(** Runs against the sample metadata store and helpers. *)
Definition sampleRun : Env → Squid.t → PublicCall → list Logged * option Error :=
  @runCall metadataStore sampleChainUtils.

Definition sampleEnv : Env := SampleEnv.answering 0 SampleEnv.okResponse.

(** The tests of the [reduce] in [getAllBalances], on their own: the
    chain's identifier is among the normalised requested ones, and the
    chain is of the Cosmos family. *)
Definition isRequested (normalizedChainIds : list string) (chain : ChainData.t) : bool :=
  bool_decide (String_ (ChainData.chainId chain) ∈ normalizedChainIds).
Definition isCosmosChain (chain : ChainData.t) : bool :=
  String.eqb (ChainData.chainType chain) ChainType.COSMOS.

(** The step returned a value. *)
Definition is_Ok {A} (r : Result A) : Prop := ∃ a, r = Ok a.

(** The step threw a [TypeError]. *)
Definition is_TypeError {A} (r : Result A) : Prop := ∃ msg, r = Thrown (TypeError msg).

(** ** The rest of the route normaliser *)

(** The raw response holds arrays where the two plans, the fee costs and
    the gas costs are; they are lists here, and [None] where the property
    is [undefined]: a route [{}] has both plans [None]. *)
Module RawOptimalRoute.
Record t := {
  fromChain : option (list JsObj);
  toChain : option (list JsObj)
}.
End RawOptimalRoute.

Module OptimalRoute.
Record t := {
  fromChain : list JsVal;
  toChain : list JsVal
}.
End OptimalRoute.

Module RawEstimate.
Record t := {
  fields : JsObj;                   (* the amounts, rates and durations *)
  route : option RawOptimalRoute.t;
  feeCosts : option (list JsObj);
  gasCosts : option (list JsObj)
}.
End RawEstimate.

Module Estimate.
Record t := {
  fromAmount : JsVal;
  sendAmount : JsVal;
  toAmount : JsVal;
  toAmountMin : JsVal;
  route : OptimalRoute.t;
  exchangeRate : JsVal;
  estimatedRouteDuration : JsVal;
  aggregatePriceImpact : JsVal;
  feeCosts : list JsObj;
  gasCosts : list JsObj
}.
End Estimate.

Module RawRouteResponse.
Record t := {
  estimate : option RawEstimate.t;
  transactionRequest : JsVal;
  params : JsVal
}.
End RawRouteResponse.

Module ParsedRoute.
Record t := {
  estimate : Estimate.t;
  transactionRequest : JsObj;
  params : JsObj
}.
End ParsedRoute.

(** [v.map(...)] and destructuring on a property that is [undefined]. *)
Definition defined {A} (v : option A) (what : string) : Result A :=
  match v with
  | Some a => Ok a
  | None => Thrown (TypeError ("Cannot read properties of undefined (" +:+ what +:+ ")"))
  end.

Definition parseTokenData (data : JsVal) : Result JsObj :=
  d ← destructure data;
  mret {[ "chainId" := getProp d "chainId";
          "address" := getProp d "address";
          "name" := getProp d "name";
          "symbol" := getProp d "symbol";
          "decimals" := getProp d "decimals";
          "logoURI" := getProp d "logoURI";
          "coingeckoId" := getProp d "coingeckoId" ]}.

Definition parseTransactionRequest (request : JsVal) : Result JsObj :=
  r ← destructure request;
  mret {[ "routeType" := getProp r "routeType";
          "targetAddress" := getProp r "targetAddress";
          "data" := getProp r "data";
          "value" := getProp r "value";
          "gasLimit" := getProp r "gasLimit";
          "gasPrice" := getProp r "gasPrice";
          "gasCosts" := getProp r "gasCosts";
          "maxFeePerGas" := getProp r "maxFeePerGas";
          "maxPriorityFeePerGas" := getProp r "maxPriorityFeePerGas" ]}.

(** The callback of the [map] in [parseFeeCost]. *)
Definition parseFeeCostItem (item : JsObj) : Result JsObj :=
  token ← parseTokenData (get item "token");
  mret {[ "name" := get item "name";
          "description" := get item "description";
          "percentage" := get item "percentage";
          "token" := JObj token;
          "amount" := get item "amount";
          "amountUSD" := get item "amountUSD" ]}.

Definition parseFeeCost (data : option (list JsObj)) : Result (list JsObj) :=
  items ← defined data "reading 'map'";
  mapM parseFeeCostItem items.

(** The callback of the [map] in [parseGasCost]. *)
Definition parseGasCostItem (item : JsObj) : Result JsObj :=
  token ← parseTokenData (get item "token");
  mret {[ "type" := get item "type";
          "token" := JObj token;
          "amount" := get item "amount";
          "amountUSD" := get item "amountUSD";
          "gasPrice" := get item "gasPrice";
          "maxFeePerGas" := get item "maxFeePerGas";
          "maxPriorityFeePerGas" := get item "maxPriorityFeePerGas";
          "estimate" := get item "estimate";
          "limit" := get item "limit" ]}.

Definition parseGasCost (data : option (list JsObj)) : Result (list JsObj) :=
  items ← defined data "reading 'map'";
  mapM parseGasCostItem items.

Section RouteResponseParser.

Variable removeEmpty : JsObj -> JsObj.

Definition parseOptimalRoute (data : option RawOptimalRoute.t) : Result OptimalRoute.t :=
  d ← defined data "destructuring";
  fromChain ← defined (RawOptimalRoute.fromChain d) "reading 'filter'"
              ≫= parseRoute removeEmpty;
  toChain ← defined (RawOptimalRoute.toChain d) "reading 'filter'"
            ≫= parseRoute removeEmpty;
  mret {| OptimalRoute.fromChain := fromChain; OptimalRoute.toChain := toChain |}.

Definition parseEstimate (data : option RawEstimate.t) : Result Estimate.t :=
  d ← defined data "destructuring";
  let fields := RawEstimate.fields d in
  route ← parseOptimalRoute (RawEstimate.route d);
  feeCosts ← parseFeeCost (RawEstimate.feeCosts d);
  gasCosts ← parseGasCost (RawEstimate.gasCosts d);
  mret {| Estimate.fromAmount := get fields "fromAmount";
          Estimate.sendAmount := get fields "sendAmount";
          Estimate.toAmount := get fields "toAmount";
          Estimate.toAmountMin := get fields "toAmountMin";
          Estimate.route := route;
          Estimate.exchangeRate := get fields "exchangeRate";
          Estimate.estimatedRouteDuration := get fields "estimatedRouteDuration";
          Estimate.aggregatePriceImpact := get fields "aggregatePriceImpact";
          Estimate.feeCosts := feeCosts;
          Estimate.gasCosts := gasCosts |}.

Definition parseCustomContractCall (data : JsVal) : Result JsObj :=
  d ← destructure data;
  mret (removeEmpty
    {[ "callType" := getProp d "callType";
       "target" := getProp d "target";
       "value" := getProp d "value";
       "callData" := getProp d "callData";
       "payload" := (if truthy (getProp d "payload")
                     then getProp d "payload" else JUndefined);
       "estimatedGas" := getProp d "estimatedGas" ]}).

Definition parseParams (data : JsVal) : Result JsObj :=
  d ← destructure data;
  fromToken ← parseTokenData (getProp d "fromToken");
  toToken ← parseTokenData (getProp d "toToken");
  customContractCalls ←
    (if truthy (getProp d "customContractCalls")
     then JObj <$> parseCustomContractCall (getProp d "customContractCalls")
     else Ok JUndefined);
  mret (removeEmpty
    {[ "fromChain" := getProp d "fromChain";
       "toChain" := getProp d "toChain";
       "fromAmount" := getProp d "fromAmount";
       "fromToken" := JObj fromToken;
       "toToken" := JObj toToken;
       "toAddress" := getProp d "toAddress";
       "slippage" := getProp d "slippage";
       "quoteOnly" := getProp d "quoteOnly";
       "enableForecall" := (if truthy (getProp d "enableForecall")
                            then getProp d "enableForecall" else JUndefined);
       "customContractCalls" := customContractCalls ]}).

Definition parseRouteResponse (response : RawRouteResponse.t) : Result ParsedRoute.t :=
  estimate ← parseEstimate (RawRouteResponse.estimate response);
  transactionRequest ← parseTransactionRequest (RawRouteResponse.transactionRequest response);
  params ← parseParams (RawRouteResponse.params response);
  mret {| ParsedRoute.estimate := estimate;
          ParsedRoute.transactionRequest := transactionRequest;
          ParsedRoute.params := params |}.

End RouteResponseParser.

(** ** Construction and configuration of [Squid] *)

(** The options handed to [new HttpAdapter(...)]. *)
Module HttpAdapterOptions.
Record t := {
  baseUrl : JsVal;
  config : JsObj;
  headers : JsObj;
  timeout : JsVal
}.
End HttpAdapterOptions.

(** What the collaborators of the constructor produce: the adapter built
    from its options, and the metadata fields as the base class
    [TokensChains] leaves them after [super()]. *)
Class Construction := {
  newHttpAdapter : HttpAdapterOptions.t -> HttpAdapter.t;
  superTokens : list Token.t;
  superChains : list ChainData.t
}.

(** [const baseUrl] of the module. *)
Definition baseUrl : string := "https://testnet.api.squidrouter.com/".

(** [a || b] *)
Definition orElse (a b : JsVal) : JsVal := if truthy a then a else b.

Module SquidConfig.

(** The SDK with its [config] field, which the operations above do not
    read. *)
Record t := {
  sdk : Squid.t;
  config : JsObj
}.

Section Configure.
Context `{Construction}.

(** [constructor(config = {} as Config)] *)
Definition constructor (config : option JsObj) : Result t :=
  let config := default ∅ config in
  if negb (truthy (get config "integratorId"))
  then Thrown (Err "integratorId required")
  else
    Ok {| sdk :=
            {| Squid.httpInstance :=
                 newHttpAdapter
                   {| HttpAdapterOptions.baseUrl :=
                        orElse (get config "baseUrl") (JStr baseUrl);
                      HttpAdapterOptions.config := config;
                      HttpAdapterOptions.headers :=
                        {[ "x-integrator-id" := get config "integratorId" ]};
                      HttpAdapterOptions.timeout := get config "timeout" |};
               Squid.initialized := false;
               Squid.isInMaintenanceMode := false;
               Squid.maintenanceMessage := None;
               Squid.axelarscanURL := None;
               Squid.tokens := superTokens;
               Squid.chains := superChains |};
          config := config ∪ {[ "baseUrl" := orElse (get config "baseUrl") (JStr baseUrl) ]} |}.

Definition setConfig (this : t) (config : JsObj) : t :=
  {| sdk :=
       {| Squid.httpInstance :=
            newHttpAdapter
              {| HttpAdapterOptions.baseUrl :=
                   orElse (get config "baseUrl") (JStr baseUrl);
                 HttpAdapterOptions.config := config;
                 HttpAdapterOptions.headers :=
                   {[ "x-integrator-id" :=
                        orElse (get config "integratorId") (JStr "squid-sdk") ]};
                 HttpAdapterOptions.timeout := get config "timeout" |};
          Squid.initialized := Squid.initialized (sdk this);
          Squid.isInMaintenanceMode := Squid.isInMaintenanceMode (sdk this);
          Squid.maintenanceMessage := Squid.maintenanceMessage (sdk this);
          Squid.axelarscanURL := Squid.axelarscanURL (sdk this);
          Squid.tokens := Squid.tokens (sdk this);
          Squid.chains := Squid.chains (sdk this) |};
     config := config ∪ {[ "baseUrl" := orElse (get config "baseUrl") (JStr baseUrl) ]} |}.

End Configure.

End SquidConfig.

(** A sample adapter factory: the headers of the options become the
    common headers, the base URL is kept when it is a string. *)
Definition sampleConstruction : Construction := {|
  newHttpAdapter o :=
    {| HttpAdapter.baseUrl := toString (HttpAdapterOptions.baseUrl o);
       HttpAdapter.commonHeaders := Some (HttpAdapterOptions.headers o);
       HttpAdapter.timeout :=
         match HttpAdapterOptions.timeout o with JNum n => Some n | _ => None end |};
  superTokens := [];
  superChains := []
|}.

(** The SDK the constructor builds, with the sample adapter factory, for
    the configuration [{integratorId: "app"}]. *)
Definition constructedApp : SquidConfig.t :=
  {| SquidConfig.sdk :=
       {| Squid.httpInstance :=
            {| HttpAdapter.baseUrl := baseUrl;
               HttpAdapter.commonHeaders := Some {[ "x-integrator-id" := JStr "app" ]};
               HttpAdapter.timeout := None |};
          Squid.initialized := false;
          Squid.isInMaintenanceMode := false;
          Squid.maintenanceMessage := None;
          Squid.axelarscanURL := None;
          Squid.tokens := [];
          Squid.chains := [] |};
     SquidConfig.config :=
       {[ "integratorId" := JStr "app"; "baseUrl" := JStr baseUrl ]} |}.



(** Conditions on a raw route response: a value is present when it is
    neither [undefined] nor [null]; a raw plan is parsable when each of
    its calls tagged Swap has a [dex]; a raw cost list is parsable when
    each of its items has a [token]. *)
Definition present (v : JsVal) : Prop := v ≠ JUndefined ∧ v ≠ JNull.

Definition swapsHaveDex (calls : list JsObj) : Prop :=
  ∀ call, call ∈ calls → get call "type" = JStr CallType.SWAP → present (get call "dex").

Definition itemsHaveToken (items : list JsObj) : Prop :=
  Forall (λ item, present (get item "token")) items.

Definition wellFormedEstimate (data : option RawEstimate.t) : Prop :=
  ∃ d route fromChain toChain fees gas,
    data = Some d ∧
    RawEstimate.route d = Some route ∧
    RawOptimalRoute.fromChain route = Some fromChain ∧
    RawOptimalRoute.toChain route = Some toChain ∧
    RawEstimate.feeCosts d = Some fees ∧
    RawEstimate.gasCosts d = Some gas ∧
    swapsHaveDex fromChain ∧ swapsHaveDex toChain ∧
    itemsHaveToken fees ∧ itemsHaveToken gas.

Definition wellFormedParams (data : JsVal) : Prop :=
  present data ∧ present (getProp data "fromToken") ∧ present (getProp data "toToken").

Module SampleResponse.

Definition usdcData : JsVal :=
  JObj {[ "chainId" := JNum 1; "address" := JStr "0xA0b8"; "symbol" := JStr "USDC" ]}.

Definition estimate : RawEstimate.t :=
  {| RawEstimate.fields := {[ "fromAmount" := JStr "1000"; "toAmount" := JStr "990" ]};
     RawEstimate.route :=
       Some {| RawOptimalRoute.fromChain := Some SampleCalls.raw;
               RawOptimalRoute.toChain := Some [SampleCalls.custom] |};
     RawEstimate.feeCosts :=
       Some [ {[ "name" := JStr "Gas Receiver Fee"; "amount" := JStr "3";
                 "token" := usdcData ]} ];
     RawEstimate.gasCosts := Some [] |}.

Definition params : JsVal :=
  JObj {[ "fromChain" := JNum 1; "toChain" := JNum 43114;
          "fromToken" := usdcData; "toToken" := usdcData;
          "fromAmount" := JStr "1000"; "slippage" := JNum 1;
          "enableForecall" := JBool false ]}.

Definition response : RawRouteResponse.t :=
  {| RawRouteResponse.estimate := Some estimate;
     RawRouteResponse.transactionRequest :=
       JObj {[ "targetAddress" := JStr "0xRouter"; "data" := JStr "0x00" ]};
     RawRouteResponse.params := params |}.

Definition withoutTransactionRequest : RawRouteResponse.t :=
  {| RawRouteResponse.estimate := Some estimate;
     RawRouteResponse.transactionRequest := JUndefined;
     RawRouteResponse.params := params |}.

(** The same response with [route: {}] in its estimate. *)
Definition withEmptyRoute : RawRouteResponse.t :=
  {| RawRouteResponse.estimate :=
       Some {| RawEstimate.fields := RawEstimate.fields estimate;
               RawEstimate.route :=
                 Some {| RawOptimalRoute.fromChain := None;
                         RawOptimalRoute.toChain := None |};
               RawEstimate.feeCosts := RawEstimate.feeCosts estimate;
               RawEstimate.gasCosts := RawEstimate.gasCosts estimate |};
     RawRouteResponse.transactionRequest :=
       JObj {[ "targetAddress" := JStr "0xRouter"; "data" := JStr "0x00" ]};
     RawRouteResponse.params := params |}.

End SampleResponse.

(** An environment in which balances are [balance] and the token
    contract fails to answer [symbol()]. *)
Definition symbolDown (balance : Z) (e : Error) : Env :=
  fun X ev =>
    match ev in Event X return Result X → Result X with
    | ContractSymbol _ => fun _ => Thrown e
    | _ => fun answer => answer
    end (SampleEnv.answering balance SampleEnv.okResponse X ev).

(** The sample environment with the EVM balance query failing. *)
Definition evmBalancesDown (e : Error) : Env :=
  fun X ev =>
    match ev in Event X return Result X → Result X with
    | EvmGetBalances _ _ _ => fun _ => Thrown e
    | _ => fun answer => answer
    end (sampleEnv X ev).

(** * Properties *)

(** ** Running programs *)

Lemma run_Throw {R} (env : Env) (e : Error) : run env (Throw e : Prog R) = ([], Thrown e).
Proof. reflexivity. Qed.

Lemma run_call {X} (env : Env) (ev : Event X) :
  run env (call ev) = ([Log ev], env X ev).
Proof. unfold call. simpl. by destruct (env X ev). Qed.

(** A call is logged whether it is answered or fails. *)
Lemma run_Vis_logged {R X} (env : Env) (ev : Event X) (k : X → Prog R) :
  ∃ tr, (run env (Vis ev k)).1 = Log ev :: tr.
Proof. simpl. destruct (env X ev); [destruct (run env (k a))|]; by eexists. Qed.

(** ** Initialisation *)

(** [init] sets the flag exactly when the metadata request is answered
    with status 200; otherwise it throws and the SDK stays as it was. *)
Lemma init_sets_initialized (env : Env) (this : Squid.t) (response : SdkInfoResponse.t) :
  env _ (HttpGet (Squid.httpInstance this) "v2/sdk-info") = Ok response →
  (run env (Squid.init this)).2 =
    if SdkInfoResponse.status response =? 200
    then Ok {| Squid.httpInstance := Squid.httpInstance this;
               Squid.initialized := true;
               Squid.isInMaintenanceMode :=
                 SdkInfo.isInMaintenanceMode (SdkInfoResponse.data response);
               Squid.maintenanceMessage :=
                 SdkInfo.maintenanceMessage (SdkInfoResponse.data response);
               Squid.axelarscanURL := SdkInfo.axlScanUrl (SdkInfoResponse.data response);
               Squid.tokens := SdkInfo.tokens (SdkInfoResponse.data response);
               Squid.chains := SdkInfo.chains (SdkInfoResponse.data response) |}
    else Thrown (Err "SDK initialization failed").
Proof.
  intros Hget. unfold Squid.init. simpl. rewrite Hget.
  by destruct (SdkInfoResponse.status response =? 200).
Qed.

Example init_sample :
  (run sampleEnv (Squid.init Sample.fresh)).2 = Ok Sample.ready.
Proof. reflexivity. Qed.

(** ** The two gates *)

Section Gates.
Context `{TokensChains} `{ChainUtils}.

Lemma validateInit_false (this : Squid.t) :
  Squid.initialized this = false →
  Squid.validateInit this = Thrown NotInitializedError.
Proof. unfold Squid.validateInit. by intros ->. Qed.

Lemma validateInit_true (this : Squid.t) :
  Squid.initialized this = true → Squid.validateInit this = Ok tt.
Proof. unfold Squid.validateInit. by intros ->. Qed.

Lemma validateTransactionRequest_None (route : Route.t) :
  Route.transactionRequest route = None →
  Squid.validateTransactionRequest route = Thrown MissingTransactionRequestError.
Proof. unfold Squid.validateTransactionRequest. by intros ->. Qed.

Lemma validateTransactionRequest_Some (route : Route.t) :
  is_Some (Route.transactionRequest route) →
  Squid.validateTransactionRequest route = Ok tt.
Proof. unfold Squid.validateTransactionRequest. by intros [tx ->]. Qed.

End Gates.

Section InitGate.
Context `{TokensChains} `{ChainUtils}.

Lemma gated_uninitialized (env : Env) (this : Squid.t) (c : PublicCall) :
  Squid.initialized this = false → validatesInit c = true →
  failedAtOnce NotInitializedError (runCall env this c).
Proof.
  intros Hinit Hc. unfold failedAtOnce.
  destruct c; try discriminate Hc; simpl;
    [ unfold Squid.getRoute | unfold Squid.executeRoute
    | unfold Squid.isRouteApproved | unfold Squid.approveRoute
    | unfold Squid.getRawTxHex ];
    by rewrite (validateInit_false this Hinit).
Qed.

Ltac starts_with_call Heq :=
  simpl in Heq; repeat case_match; discriminate Heq.

Lemma ungated_never_fails_at_once (env : Env) (this : Squid.t) (c : PublicCall) :
  validatesInit c = false → ∀ e, ¬ failedAtOnce e (runCall env this c).
Proof.
  intros Hc e Heq. unfold failedAtOnce in Heq.
  destruct c; try discriminate Hc; simpl in Heq.
  - starts_with_call Heq.
  - starts_with_call Heq.
  - starts_with_call Heq.
  - unfold Squid.getAllBalances in Heq.
    destruct (Squid.chainIdsByFamily _ _) as [evmIds cosmosIds].
    destruct evmAddress as [a|]; [destruct (negb (a =? ""))%string|];
      destruct cosmosAddresses; (discriminate Heq || starts_with_call Heq).
Qed.

(** C1, as amended: on an SDK whose [initialized] flag is not set, the
    operations that fail with [NotInitializedError] before doing
    anything else are exactly [getRoute], [executeRoute],
    [isRouteApproved], [approveRoute] and [getRawTxHex].  [getStatus],
    [getEvmBalances], [getCosmosBalances] and [getAllBalances] do not
    check the flag: each of them is the same program whatever the value
    of the flag, so it makes the same calls and has the same outcome. *)
Theorem not_initialized_iff_validatesInit
    (env : Env) (this : Squid.t) (c : PublicCall) :
  Squid.initialized this = false →
  (failedAtOnce NotInitializedError (runCall env this c) ↔ validatesInit c = true) ∧
  (∀ b : bool,
     (∀ params,
        Squid.getStatus (withInitialized b this) params = Squid.getStatus this params) ∧
     (∀ userAddress chains,
        Squid.getEvmBalances (withInitialized b this) userAddress chains =
        Squid.getEvmBalances this userAddress chains) ∧
     (∀ addresses chainIds,
        Squid.getCosmosBalances (withInitialized b this) addresses chainIds =
        Squid.getCosmosBalances this addresses chainIds) ∧
     (∀ chainIds cosmosAddresses evmAddress,
        Squid.getAllBalances (withInitialized b this) chainIds cosmosAddresses evmAddress =
        Squid.getAllBalances this chainIds cosmosAddresses evmAddress)) ∧
  (validatesInit c = false →
     ∀ b : bool, runCall env (withInitialized b this) c = runCall env this c).
Proof.
  intros Hinit. split; [split|split].
  - intros Hstep. destruct (validatesInit c) eqn:Hc; [done|].
    by destruct (ungated_never_fails_at_once env this c Hc NotInitializedError).
  - by apply gated_uninitialized.
  - intros b. repeat split.
  - intros Hc b. by destruct c; try discriminate Hc.
Qed.

(** C2, as amended: on an initialized SDK, each of [executeRoute],
    [approveRoute], [isRouteApproved] and [getRawTxHex] called with a
    route that has no transaction request fails with
    [MissingTransactionRequestError] without having made any call, so
    before any handler is invoked. *)
Theorem missing_transaction_request_rejected
    (env : Env) (this : Squid.t) (c : PublicCall) (route : Route.t) :
  Squid.initialized this = true →
  routeOf c = Some route →
  Route.transactionRequest route = None →
  failedAtOnce MissingTransactionRequestError (runCall env this c) ∧
  handlersOf (runCall env this c) = [].
Proof.
  intros Hinit Hc Htx.
  assert (failedAtOnce MissingTransactionRequestError (runCall env this c)) as Hfail.
  { unfold failedAtOnce.
    destruct c; try discriminate Hc; simpl in Hc; injection Hc as <-; simpl;
      [ unfold Squid.executeRoute | unfold Squid.isRouteApproved
      | unfold Squid.approveRoute | unfold Squid.getRawTxHex ];
      rewrite (validateInit_true this Hinit); simpl;
      by rewrite (validateTransactionRequest_None _ Htx). }
  split; [done|]. unfold failedAtOnce in Hfail. by rewrite Hfail.
Qed.

End InitGate.

(** On the SDK before [init], [executeRoute] fails at once with
    [NotInitializedError]. *)
Lemma not_initialized_witness :
  Squid.initialized Sample.fresh = false ∧
  failedAtOnce NotInitializedError
    (sampleRun sampleEnv Sample.fresh
       (CallExecuteRoute (Sample.execute (Sample.route (Some Sample.legacyTx) (IdNum 1) "0xA0b8")))).
Proof.
  split; [reflexivity|].
  destruct (not_initialized_iff_validatesInit (H := metadataStore) (H0 := sampleChainUtils)
              sampleEnv Sample.fresh
              (CallExecuteRoute
                 (Sample.execute (Sample.route (Some Sample.legacyTx) (IdNum 1) "0xA0b8")))
              eq_refl) as [Hgate _].
  apply Hgate. reflexivity.
Defined.

(** C1 as stated fails: on the SDK before [init], [getStatus] sends its
    request to the status endpoint and returns; it does not fail with
    [NotInitializedError]. *)
Lemma getStatus_ignores_initialized :
  Squid.initialized Sample.fresh = false ∧
  sampleRun sampleEnv Sample.fresh (CallGetStatus Sample.status) =
    ([Log (AxiosGet Sample.http "/v1/status" Sample.status
             {[ "x-integrator-id" := JStr "app" ]})], None) ∧
  ¬ failedAtOnce NotInitializedError
      (sampleRun sampleEnv Sample.fresh (CallGetStatus Sample.status)).
Proof.
  split; [reflexivity|]. split; [vm_compute; reflexivity|].
  unfold failedAtOnce. vm_compute. discriminate.
Qed.

(** On the initialized SDK, [getRawTxHex] of a route without a
    transaction request fails at once with
    [MissingTransactionRequestError]. *)
Lemma missing_transaction_request_witness :
  failedAtOnce MissingTransactionRequestError
    (sampleRun sampleEnv Sample.ready
       (CallGetRawTxHex (Sample.rawTx (Sample.route None (IdNum 1) "0xA0b8")))) ∧
  handlersOf
    (sampleRun sampleEnv Sample.ready
       (CallGetRawTxHex (Sample.rawTx (Sample.route None (IdNum 1) "0xA0b8")))) = [].
Proof.
  apply (missing_transaction_request_rejected (H := metadataStore) (H0 := sampleChainUtils)
           sampleEnv Sample.ready _ (Sample.route None (IdNum 1) "0xA0b8"));
    reflexivity.
Defined.

(** C2 as stated fails: on the SDK before [init], [executeRoute] of a
    route without a transaction request fails with [NotInitializedError],
    not with [MissingTransactionRequestError]. *)
Lemma missing_request_uninitialized :
  Route.transactionRequest (Sample.route None (IdNum 1) "0xA0b8") = None ∧
  sampleRun sampleEnv Sample.fresh
    (CallExecuteRoute (Sample.execute (Sample.route None (IdNum 1) "0xA0b8"))) =
    ([], Some NotInitializedError) ∧
  ¬ failedAtOnce MissingTransactionRequestError
      (sampleRun sampleEnv Sample.fresh
         (CallExecuteRoute (Sample.execute (Sample.route None (IdNum 1) "0xA0b8")))).
Proof.
  split; [reflexivity|]. split; [reflexivity|].
  unfold failedAtOnce. vm_compute. discriminate.
Qed.

(** ** Dispatch on the chain family *)

Section Dispatch.
Context `{TokensChains} `{ChainUtils}.

(** What a dispatching operation does once both validations passed and
    the resolver returned [params]: it calls the handler of the table
    with the resolved parameters, or throws when the table has none. *)
Lemma dispatch_follows_table (env : Env) (this : Squid.t) (c : PublicCall)
    (params : RouteParamsPopulated.t) :
  resolvesTo this c params →
  match handlerFor c (resolvedChainType params) with
  | Some h => handlersOf (runCall env this c) = [h]
  | None => failedAtOnce (UnsupportedChainFamilyError (resolvedChainType params))
              (runCall env this c)
  end.
Proof.
  intros (Hinit & route & signer & Hargs & Htx & Hpop).
  unfold resolvedChainType, failedAtOnce, handlersOf.
  destruct c; try discriminate Hargs; simpl in Hargs; injection Hargs as <- <-;
    simpl handlerFor; unfold runCall;
    [ unfold Squid.executeRoute | unfold Squid.isRouteApproved
    | unfold Squid.approveRoute ];
    rewrite (validateInit_true this Hinit); simpl;
    rewrite (validateTransactionRequest_Some _ Htx); simpl;
    rewrite Hpop; simpl.
  - destruct (String.eqb _ ChainType.EVM); [by rewrite run_call|].
    destruct (String.eqb _ ChainType.COSMOS); [by rewrite run_call|done].
  - destruct (String.eqb _ ChainType.EVM); [|done].
    destruct Htx as [tx ->]. by rewrite run_call.
  - destruct (String.eqb _ ChainType.EVM); [by rewrite run_call|done].
Qed.

Lemma handlerFor_sameOperation (c1 c2 : PublicCall) (chainType : string) :
  sameOperation c1 c2 = true → handlerFor c1 chainType = handlerFor c2 chainType.
Proof. destruct c1, c2; simpl; intros; done. Qed.

(** C3, as amended: for each of the dispatching operations
    [executeRoute], [approveRoute] and [isRouteApproved], the handler
    invoked is a function of the resolved [fromChain.chainType]: two
    calls of the same operation whose resolved chain types agree invoke
    the same handler, whatever the SDK state, the route and the
    environment.  On EVM every one of them invokes the EVM handler; on
    COSMOS [executeRoute] invokes the Cosmos handler, while
    [approveRoute] and [isRouteApproved], which have no Cosmos case,
    fail with [UnsupportedChainFamilyError]; and every chain type other
    than EVM and COSMOS makes the operation fail with
    [UnsupportedChainFamilyError], in each case without invoking any
    handler. *)
Theorem dispatch_is_function_of_chainType
    (env1 : Env) (this1 : Squid.t) (c1 : PublicCall)
    (params1 : RouteParamsPopulated.t) :
  resolvesTo this1 c1 params1 →
  (∀ (env2 : Env) (this2 : Squid.t) (c2 : PublicCall)
     (params2 : RouteParamsPopulated.t),
     resolvesTo this2 c2 params2 →
     sameOperation c1 c2 = true →
     resolvedChainType params1 = resolvedChainType params2 →
     handlersOf (runCall env1 this1 c1) = handlersOf (runCall env2 this2 c2)) ∧
  (resolvedChainType params1 = ChainType.EVM →
     handlersOf (runCall env1 this1 c1) = [evm]) ∧
  (resolvedChainType params1 = ChainType.COSMOS →
     match c1 with
     | CallExecuteRoute _ => handlersOf (runCall env1 this1 c1) = [cosmos]
     | _ =>
         failedAtOnce (UnsupportedChainFamilyError ChainType.COSMOS)
           (runCall env1 this1 c1) ∧
         handlersOf (runCall env1 this1 c1) = []
     end) ∧
  (resolvedChainType params1 ≠ ChainType.EVM →
   resolvedChainType params1 ≠ ChainType.COSMOS →
     failedAtOnce (UnsupportedChainFamilyError (resolvedChainType params1))
       (runCall env1 this1 c1) ∧
     handlersOf (runCall env1 this1 c1) = []).
Proof.
  intros Hr1.
  pose proof (dispatch_follows_table env1 this1 c1 params1 Hr1) as H1.
  split; [|split; [|split]].
  - intros env2 this2 c2 params2 Hr2 Hsame Hct.
    pose proof (dispatch_follows_table env2 this2 c2 params2 Hr2) as H2.
    rewrite <- Hct, <- (handlerFor_sameOperation c1 c2 _ Hsame) in H2.
    destruct (handlerFor c1 (resolvedChainType params1)); [congruence|].
    unfold failedAtOnce in *. by rewrite H1, H2.
  - intros Hevm. rewrite Hevm in H1.
    destruct Hr1 as (_ & route & signer & Hargs & _).
    by destruct c1; try discriminate Hargs.
  - intros Hcosmos. rewrite Hcosmos in H1.
    destruct Hr1 as (_ & route & signer & Hargs & _).
    destruct c1; try discriminate Hargs;
      (change (handlerFor _ ChainType.COSMOS) with (Some cosmos) in H1 ||
       change (handlerFor _ ChainType.COSMOS) with (@None Handler) in H1);
      cbv beta iota in H1; [done| |];
      (split; [done|]); unfold failedAtOnce in H1; by rewrite H1.
  - intros Hevm Hcosmos.
    apply String.eqb_neq in Hevm, Hcosmos.
    assert (handlerFor c1 (resolvedChainType params1) = None) as Hnone.
    { destruct c1; simpl; by rewrite ?Hevm, ?Hcosmos. }
    rewrite Hnone in H1. split; [done|].
    unfold failedAtOnce in H1. by rewrite H1.
Qed.

(** On the Cosmos family [executeRoute] selects the Cosmos handler, while
    [approveRoute] and [isRouteApproved], whose [switch] has the EVM case
    only, fail. *)
Lemma dispatch_cosmos (env : Env) (this : Squid.t) (c : PublicCall)
    (params : RouteParamsPopulated.t) :
  resolvesTo this c params →
  resolvedChainType params = ChainType.COSMOS →
  match c with
  | CallExecuteRoute _ => handlersOf (runCall env this c) = [cosmos]
  | _ => failedAtOnce (UnsupportedChainFamilyError ChainType.COSMOS) (runCall env this c)
  end.
Proof.
  intros Hr Hct. pose proof (dispatch_follows_table env this c params Hr) as Ht.
  rewrite Hct in Ht.
  destruct Hr as (_ & route & signer & Hargs & _).
  by destruct c; try discriminate Hargs.
Qed.

End Dispatch.

(** Two [executeRoute] calls from Osmosis, in different environments,
    both go to the Cosmos handler. *)
Lemma dispatch_witness :
  handlersOf (sampleRun sampleEnv Sample.ready
    (CallExecuteRoute
       (Sample.execute (Sample.route (Some Sample.legacyTx) (IdStr "osmosis-1") "uosmo")))) =
  handlersOf (sampleRun (SampleEnv.answering 5 SampleEnv.slippageTooHigh) Sample.ready
    (CallExecuteRoute
       (Sample.execute
          (Sample.route (Some Sample.feeMarketTx) (IdStr "osmosis-1") "uosmo")))) ∧
  handlersOf (sampleRun sampleEnv Sample.ready
    (CallExecuteRoute
       (Sample.execute (Sample.route (Some Sample.legacyTx) (IdStr "osmosis-1") "uosmo")))) =
  [cosmos].
Proof.
  destruct (dispatch_is_function_of_chainType (H := metadataStore) (H0 := sampleChainUtils)
    sampleEnv Sample.ready
    (CallExecuteRoute
       (Sample.execute (Sample.route (Some Sample.legacyTx) (IdStr "osmosis-1") "uosmo")))
    (Sample.populated Sample.osmosis Sample.osmo false)) as (Hsame & _ & Hcosmos & _).
  - split; [reflexivity|]. eexists _, _.
    split; [reflexivity|]. split; [eexists; reflexivity|]. reflexivity.
  - split; [|apply Hcosmos; reflexivity].
    apply (Hsame (SampleEnv.answering 5 SampleEnv.slippageTooHigh) Sample.ready
             (CallExecuteRoute
                (Sample.execute
                   (Sample.route (Some Sample.feeMarketTx) (IdStr "osmosis-1") "uosmo")))
             (Sample.populated Sample.osmosis Sample.osmo false)).
    + split; [reflexivity|]. eexists _, _.
      split; [reflexivity|]. split; [eexists; reflexivity|]. reflexivity.
    + reflexivity.
    + reflexivity.
Defined.

(** C3 as stated fails: the chain family alone does not select the
    handler.  For one and the same route from Osmosis, whose source
    chain resolves to the Cosmos family, [executeRoute] invokes the
    Cosmos handler while [approveRoute] and [isRouteApproved] invoke
    none and fail with [UnsupportedChainFamilyError], although COSMOS is
    in the set {EVM, COSMOS}. *)
Lemma dispatch_depends_on_operation :
  resolvedChainType <$>
    Squid.populateRouteParams (H := metadataStore) Sample.ready
      (Sample.request (IdStr "osmosis-1") "uosmo") (Some Sample.alice) =
    Ok ChainType.COSMOS ∧
  handlersOf (sampleRun sampleEnv Sample.ready
    (CallExecuteRoute
       (Sample.execute (Sample.route (Some Sample.legacyTx) (IdStr "osmosis-1") "uosmo")))) =
    [cosmos] ∧
  sampleRun sampleEnv Sample.ready
    (CallApproveRoute
       (Sample.execute (Sample.route (Some Sample.legacyTx) (IdStr "osmosis-1") "uosmo"))) =
    ([], Some (UnsupportedChainFamilyError "cosmos")) ∧
  sampleRun sampleEnv Sample.ready
    (CallIsRouteApproved (Sample.route (Some Sample.legacyTx) (IdStr "osmosis-1") "uosmo")
       "0xAlice") =
    ([], Some (UnsupportedChainFamilyError "cosmos")).
Proof. repeat split; vm_compute; reflexivity. Qed.

(** ** [getRawTxHex] *)

(** C4, as amended: on an initialized SDK and for a route that carries a
    transaction request, [getRawTxHex] makes exactly one call, to the EVM
    handler's [getRawTxHex] with the data it was given, and its outcome
    is that call's outcome.  It resolves no route parameters and looks at
    no chain family: the statement holds for every metadata store. *)
Theorem getRawTxHex_delegates_to_evm (env : Env) (this : Squid.t) (data : RawTxRequest.t) :
  Squid.initialized this = true →
  is_Some (Route.transactionRequest (RawTxRequest.route data)) →
  run env (Squid.getRawTxHex this data) =
    ([Log (EvmGetRawTxHex data)], env string (EvmGetRawTxHex data)) ∧
  handlersInvoked env (Squid.getRawTxHex this data) = [evm].
Proof.
  intros Hinit Htx. unfold handlersInvoked, Squid.getRawTxHex.
  rewrite (validateInit_true this Hinit); simpl.
  rewrite (validateTransactionRequest_Some _ Htx); simpl.
  by destruct (env string _).
Qed.

Lemma getRawTxHex_witness :
  run sampleEnv
    (Squid.getRawTxHex Sample.ready
       (Sample.rawTx (Sample.route (Some Sample.legacyTx) (IdNum 1) "0xA0b8"))) =
    ([Log (EvmGetRawTxHex
             (Sample.rawTx (Sample.route (Some Sample.legacyTx) (IdNum 1) "0xA0b8")))],
     Ok "0xf86c").
Proof.
  apply (getRawTxHex_delegates_to_evm sampleEnv Sample.ready
           (Sample.rawTx (Sample.route (Some Sample.legacyTx) (IdNum 1) "0xA0b8"))).
  - reflexivity.
  - eexists; reflexivity.
Defined.

(** C4 as stated fails.  For a route whose source chain resolves to the
    Cosmos family, [getRawTxHex] does not fail: it calls the EVM handler
    and returns its answer.  For a route whose source chain is unknown,
    so that resolving its parameters throws, [getRawTxHex] does the same:
    it does not resolve them. *)
Lemma getRawTxHex_cosmos_route :
  resolvedChainType <$>
    Squid.populateRouteParams (H := metadataStore) Sample.ready
      (Sample.request (IdStr "osmosis-1") "uosmo") None = Ok ChainType.COSMOS ∧
  run sampleEnv
    (Squid.getRawTxHex Sample.ready
       (Sample.rawTx (Sample.route (Some Sample.legacyTx) (IdStr "osmosis-1") "uosmo"))) =
    ([Log (EvmGetRawTxHex
             (Sample.rawTx (Sample.route (Some Sample.legacyTx) (IdStr "osmosis-1") "uosmo")))],
     Ok "0xf86c") ∧
  Squid.populateRouteParams (H := metadataStore) Sample.ready
    (Sample.request (IdNum 999) "0xA0b8") None =
    Thrown (Err "Could not find chain with 999") ∧
  run sampleEnv
    (Squid.getRawTxHex Sample.ready
       (Sample.rawTx (Sample.route (Some Sample.legacyTx) (IdNum 999) "0xA0b8"))) =
    ([Log (EvmGetRawTxHex
             (Sample.rawTx (Sample.route (Some Sample.legacyTx) (IdNum 999) "0xA0b8")))],
     Ok "0xf86c").
Proof. repeat split; vm_compute; reflexivity. Qed.

(** ** Gas parameters *)

(** C5: without overrides [getGasData] returns an object whose keys are
    exactly gasLimit, maxPriorityFeePerGas and maxFeePerGas when the
    request's [maxPriorityFeePerGas] is set (truthy), and exactly
    gasLimit and gasPrice when it is not, each with the request's value;
    with overrides, every key of the overrides carries the override's
    value and every other key carries its derived value. *)
Theorem getGasData_fields (transactionRequest : SquidData) :
  dom (Utils.getGasData transactionRequest None) =
    (if truthy (maxPriorityFeePerGas transactionRequest)
     then {[ "gasLimit"; "maxPriorityFeePerGas"; "maxFeePerGas" ]}
     else {[ "gasLimit"; "gasPrice" ]} : gset string) ∧
  Utils.getGasData transactionRequest None !! "gasLimit" =
    Some (gasLimit transactionRequest) ∧
  Utils.getGasData transactionRequest None !! "maxPriorityFeePerGas" =
    (if truthy (maxPriorityFeePerGas transactionRequest)
     then Some (maxPriorityFeePerGas transactionRequest) else None) ∧
  Utils.getGasData transactionRequest None !! "maxFeePerGas" =
    (if truthy (maxPriorityFeePerGas transactionRequest)
     then Some (maxFeePerGas transactionRequest) else None) ∧
  Utils.getGasData transactionRequest None !! "gasPrice" =
    (if truthy (maxPriorityFeePerGas transactionRequest)
     then None else Some (gasPrice transactionRequest)) ∧
  ∀ (overrides : JsObj) (k : string),
    Utils.getGasData transactionRequest (Some overrides) !! k =
      match overrides !! k with
      | Some v => Some v
      | None => Utils.getGasData transactionRequest None !! k
      end.
Proof.
  unfold Utils.getGasData. cbn zeta.
  destruct (truthy (maxPriorityFeePerGas transactionRequest));
    (repeat split; try done; intros o k; rewrite lookup_union;
     destruct (o !! k); by destruct (_ !! k)).
Qed.

Example getGasData_sample :
  map_to_list (Utils.getGasData Sample.feeMarketTx
                 (Some {[ "gasLimit" := JStr "1"; "nonce" := JNum 3 ]})) =
    [("gasLimit", JStr "1"); ("maxFeePerGas", JStr "40");
     ("maxPriorityFeePerGas", JStr "2"); ("nonce", JNum 3)] ∧
  map_to_list (Utils.getGasData Sample.legacyTx None) =
    [("gasLimit", JStr "500000"); ("gasPrice", JStr "30")].
Proof. split; vm_compute; reflexivity. Qed.

(** ** Balance validation *)

(** C6, as amended: whatever balance the provider (native) or the token
    contract (token) reports, balance validation fails with
    [InsufficientBalanceError], which names the account and the chain
    identifier, when the required amount exceeds it.  When it does not,
    the validation of a native balance returns an approved result; the
    validation of a token balance then asks the contract for the token's
    symbol, returns an approved result when that query is answered, and
    fails with the query's error when it is not. *)
Theorem balance_validation (env : Env) (fromProvider : RpcProvider)
    (fromTokenContract : Contract) (sender : string) (amount : Z)
    (fromChain : ChainData.t) :
  (∀ balance,
     env Z (ProviderGetBalance fromProvider sender) = Ok balance →
     (amount > balance →
        (run env (Utils.validateNativeBalance fromProvider sender amount fromChain)).2 =
          Thrown (InsufficientBalanceError sender (ChainData.chainId fromChain))) ∧
     (amount ≤ balance →
        isApproved <$>
          (run env (Utils.validateNativeBalance fromProvider sender amount fromChain)).2 =
          Ok true)) ∧
  (∀ balance,
     env Z (ContractBalanceOf fromTokenContract sender) = Ok balance →
     (amount > balance →
        (run env (Utils.validateTokenBalance amount fromTokenContract sender fromChain)).2 =
          Thrown (InsufficientBalanceError sender (ChainData.chainId fromChain))) ∧
     (amount ≤ balance →
        (∀ symbol, env string (ContractSymbol fromTokenContract) = Ok symbol →
           isApproved <$>
             (run env (Utils.validateTokenBalance amount fromTokenContract sender
                         fromChain)).2 = Ok true) ∧
        (∀ e, env string (ContractSymbol fromTokenContract) = Thrown e →
           (run env (Utils.validateTokenBalance amount fromTokenContract sender
                       fromChain)).2 = Thrown e))).
Proof.
  unfold Utils.validateNativeBalance, Utils.validateTokenBalance. simpl. split.
  - intros balance ->. split; intros Hcmp.
    + assert ((amount >? balance) = true) as -> by lia. reflexivity.
    + assert ((amount >? balance) = false) as -> by lia. reflexivity.
  - intros balance ->. split; intros Hcmp.
    + assert ((amount >? balance) = true) as -> by lia. reflexivity.
    + assert ((amount >? balance) = false) as -> by lia. simpl.
      split; [intros symbol ->|intros e ->]; reflexivity.
Qed.

(** Alice holds 100 and needs 150: the validation of her native balance
    on chain 1 fails, and so does that of her token balance. *)
Lemma balance_validation_witness :
  (run (SampleEnv.answering 100 SampleEnv.okResponse)
     (Utils.validateNativeBalance {| providerUrl := "https://eth.example" |}
        "0xAlice" 150 Sample.ethereum)).2 =
    Thrown (Err "Insufficient funds for account: 0xAlice on chain 1") ∧
  (run (SampleEnv.answering 100 SampleEnv.okResponse)
     (Utils.validateTokenBalance 150
        {| contractAddress := "0xA0b8"; contractAbi := erc20Abi;
           contractRunner := RunSigner Sample.alice |}
        "0xAlice" Sample.ethereum)).2 =
    Thrown (Err "Insufficient funds for account: 0xAlice on chain 1").
Proof.
  destruct (balance_validation (SampleEnv.answering 100 SampleEnv.okResponse)
              {| providerUrl := "https://eth.example" |}
              {| contractAddress := "0xA0b8"; contractAbi := erc20Abi;
                 contractRunner := RunSigner Sample.alice |}
              "0xAlice" 150 Sample.ethereum) as [Hnative Htoken].
  destruct (Hnative 100 eq_refl) as [Hshort _].
  destruct (Htoken 100 eq_refl) as [Hshort' _].
  split; [apply Hshort|apply Hshort']; lia.
Defined.

(** C6 as stated fails for a token balance: Alice holds 100 of the token
    and needs 40, but the contract does not answer [symbol()], and the
    validation throws that error instead of returning an approved
    result. *)
Lemma token_validation_needs_symbol :
  40 ≤ 100 ∧
  symbolDown 100 (Err "call revert exception") Z
    (ContractBalanceOf
       {| contractAddress := "0xA0b8"; contractAbi := erc20Abi;
          contractRunner := RunSigner Sample.alice |} "0xAlice") = Ok 100 ∧
  (run (symbolDown 100 (Err "call revert exception"))
     (Utils.validateTokenBalance 40
        {| contractAddress := "0xA0b8"; contractAbi := erc20Abi;
           contractRunner := RunSigner Sample.alice |}
        "0xAlice" Sample.ethereum)).2 = Thrown (Err "call revert exception").
Proof. split; [lia|]. split; reflexivity. Qed.

(** ** The route parameter resolver *)

Section Resolver.
Context `{TokensChains}.

(** C7: when the four lookups succeed, the resolver returns parameters in
    which [fromTokenContract] is absent if the address of the resolved
    source token is the native-token sentinel, and otherwise is a
    contract handle bound to that address, with the ERC20 interface, on
    the signer when one is given and on the read provider of the source
    chain when none is. *)
Theorem populateRouteParams_fromTokenContract (this : Squid.t)
    (params : RouteRequest.t) (signer : option EvmWallet)
    (_fromChain _toChain : ChainData.t) (_fromToken _toToken : Token.t) :
  getChainData (Squid.tokens this) (Squid.chains this)
    (RouteRequest.fromChain params) = Ok _fromChain →
  getChainData (Squid.tokens this) (Squid.chains this)
    (RouteRequest.toChain params) = Ok _toChain →
  getTokenData (Squid.tokens this) (Squid.chains this)
    (RouteRequest.fromToken params) (RouteRequest.fromChain params) = Ok _fromToken →
  getTokenData (Squid.tokens this) (Squid.chains this)
    (RouteRequest.toToken params) (RouteRequest.toChain params) = Ok _toToken →
  ∃ resolved,
    Squid.populateRouteParams this params signer = Ok resolved ∧
    RouteParamsPopulated.fromChain resolved = _fromChain ∧
    RouteParamsPopulated.fromToken resolved = _fromToken ∧
    (Token.address _fromToken = nativeTokenConstant →
       RouteParamsPopulated.fromTokenContract resolved = None) ∧
    (Token.address _fromToken ≠ nativeTokenConstant →
       RouteParamsPopulated.fromTokenContract resolved =
         Some {| contractAddress := Token.address _fromToken;
                 contractAbi := erc20Abi;
                 contractRunner :=
                   match signer with
                   | Some w => RunSigner w
                   | None => RunProvider {| providerUrl := ChainData.rpc _fromChain |}
                   end |}).
Proof.
  intros Hfc Htc Hft Htt. unfold Squid.populateRouteParams. cbn zeta.
  rewrite Hfc; simpl. rewrite Htc; simpl. rewrite Hft; simpl. rewrite Htt; simpl.
  eexists. split; [reflexivity|]. simpl. repeat split.
  - intros ->. reflexivity.
  - intros Hne. apply String.eqb_neq in Hne. rewrite Hne. reflexivity.
Qed.

End Resolver.

(** Without a signer, a route from USDC on Ethereum gets a contract
    handle on the read provider. *)
Lemma populateRouteParams_witness :
  ∃ resolved,
    Squid.populateRouteParams (H := metadataStore) Sample.ready
      (Sample.request (IdNum 1) "0xA0b8") None = Ok resolved ∧
    RouteParamsPopulated.fromTokenContract resolved =
      Some {| contractAddress := "0xA0b8"; contractAbi := erc20Abi;
              contractRunner := RunProvider {| providerUrl := "https://eth.example" |} |}.
Proof.
  destruct (populateRouteParams_fromTokenContract (H := metadataStore) Sample.ready
              (Sample.request (IdNum 1) "0xA0b8") None
              Sample.ethereum Sample.ethereum Sample.usdc Sample.eth
              eq_refl eq_refl eq_refl eq_refl)
    as (resolved & Hpop & _ & _ & _ & Hcontract).
  exists resolved. split; [exact Hpop|]. apply Hcontract. discriminate.
Defined.

(** ** The routing service *)

(** C9: when the routing service answers the route request with a status
    other than 200, [getRoute] fails with an error whose message is the
    [error] string of the answer's body; a status 400 with body
    [{error: "slippage too high"}] gives the message
    "slippage too high". *)
Theorem getRoute_surfaces_service_error (env : Env) (this : Squid.t)
    (params : RouteRequest.t) (response : HttpResponse.t) :
  Squid.initialized this = true →
  env HttpResponse.t (HttpPost (Squid.httpInstance this) "v2/route" params) = Ok response →
  (∀ msg : string,
     HttpResponse.status response ≠ 200 →
     HttpResponse.data response !! "error" = Some (JStr msg) →
     (run env (Squid.getRoute this params)).2 = Thrown (Err msg)) ∧
  (HttpResponse.status response = 400 →
   HttpResponse.data response = {[ "error" := JStr "slippage too high" ]} →
     (run env (Squid.getRoute this params)).2 = Thrown (Err "slippage too high")).
Proof.
  intros Hinit Hpost.
  assert (∀ msg : string,
            HttpResponse.status response ≠ 200 →
            HttpResponse.data response !! "error" = Some (JStr msg) →
            (run env (Squid.getRoute this params)).2 = Thrown (Err msg)) as Hgen.
  { intros msg Hstatus Herror. unfold Squid.getRoute.
    rewrite (validateInit_true this Hinit). simpl. rewrite Hpost.
    apply Z.eqb_neq in Hstatus. rewrite Hstatus. simpl.
    unfold get. rewrite Herror. reflexivity. }
  split; [exact Hgen|].
  intros Hstatus Hdata. apply Hgen; [lia|]. by rewrite Hdata.
Qed.

Lemma getRoute_slippage_too_high :
  (run (SampleEnv.answering 0 SampleEnv.slippageTooHigh)
     (Squid.getRoute Sample.ready (Sample.request (IdNum 1) "0xA0b8"))).2 =
    Thrown (Err "slippage too high").
Proof.
  apply (getRoute_surfaces_service_error (SampleEnv.answering 0 SampleEnv.slippageTooHigh)
           Sample.ready (Sample.request (IdNum 1) "0xA0b8") SampleEnv.slippageTooHigh);
    reflexivity.
Defined.

(** ** Partition of the requested chains *)

Section Partition.
Variable normalizedChainIds : list string.

Lemma classifyChain_evm (chains_ : list ChainData.t)
    (acc : list ChainId * list ChainId) (id : ChainId) :
  id ∈ (fold_left (Squid.classifyChain normalizedChainIds) chains_ acc).1 ↔
  id ∈ acc.1 ∨
  ∃ chain, chain ∈ chains_ ∧ ChainData.chainId chain = id ∧
           String_ id ∈ normalizedChainIds ∧
           ChainData.chainType chain ≠ ChainType.COSMOS.
Proof.
  revert acc. induction chains_ as [|chain rest IH]; intros acc; simpl.
  - setoid_rewrite elem_of_nil. naive_solver.
  - rewrite IH. unfold Squid.classifyChain. setoid_rewrite elem_of_cons.
    case_bool_decide as Hreq; simpl;
      [destruct (String.eqb_spec (ChainData.chainType chain) ChainType.COSMOS);
       simpl; rewrite ?elem_of_app, ?list_elem_of_singleton|];
      naive_solver.
Qed.

Lemma classifyChain_cosmos (chains_ : list ChainData.t)
    (acc : list ChainId * list ChainId) (id : ChainId) :
  id ∈ (fold_left (Squid.classifyChain normalizedChainIds) chains_ acc).2 ↔
  id ∈ acc.2 ∨
  ∃ chain, chain ∈ chains_ ∧ ChainData.chainId chain = id ∧
           String_ id ∈ normalizedChainIds ∧
           ChainData.chainType chain = ChainType.COSMOS.
Proof.
  revert acc. induction chains_ as [|chain rest IH]; intros acc; simpl.
  - setoid_rewrite elem_of_nil. naive_solver.
  - rewrite IH. unfold Squid.classifyChain. setoid_rewrite elem_of_cons.
    case_bool_decide as Hreq; simpl;
      [destruct (String.eqb_spec (ChainData.chainType chain) ChainType.COSMOS);
       simpl; rewrite ?elem_of_app, ?list_elem_of_singleton|];
      naive_solver.
Qed.

End Partition.

(** C10: in [getAllBalances], with the requested identifiers normalised
    to strings, a known chain whose identifier is requested goes to the
    EVM group whenever its [chainType] is not COSMOS, whatever else it
    is, and to the Cosmos group when it is COSMOS; the EVM group holds
    nothing else; and an identifier that is not requested is in neither
    group. *)
Theorem chainIdsByFamily_partition (this : Squid.t) (chainIds : option (list ChainId)) :
  let normalizedChainIds := String_ <$> default [] chainIds in
  let groups := Squid.chainIdsByFamily (Squid.chains this) normalizedChainIds in
  (∀ chain, chain ∈ Squid.chains this →
     String_ (ChainData.chainId chain) ∈ normalizedChainIds →
     ChainData.chainType chain ≠ ChainType.COSMOS →
     ChainData.chainId chain ∈ groups.1) ∧
  (∀ chain, chain ∈ Squid.chains this →
     String_ (ChainData.chainId chain) ∈ normalizedChainIds →
     ChainData.chainType chain = ChainType.COSMOS →
     ChainData.chainId chain ∈ groups.2) ∧
  (∀ id, id ∈ groups.1 →
     ∃ chain, chain ∈ Squid.chains this ∧ ChainData.chainId chain = id ∧
              ChainData.chainType chain ≠ ChainType.COSMOS) ∧
  (∀ id, String_ id ∉ normalizedChainIds → (id ∉ groups.1) ∧ (id ∉ groups.2)).
Proof.
  intros normalizedChainIds groups. subst groups. unfold Squid.chainIdsByFamily.
  repeat split.
  - intros chain Hin Hreq Hty. apply classifyChain_evm. right. by exists chain.
  - intros chain Hin Hreq Hty. apply classifyChain_cosmos. right. by exists chain.
  - intros id Hid. apply classifyChain_evm in Hid as [Hnil|(chain & Hin & Hc & _ & Hty)].
    + by apply elem_of_nil in Hnil.
    + by exists chain.
  - intros Hid. apply classifyChain_evm in Hid as [Hnil|(chain & _ & _ & Hreq & _)].
    + by apply elem_of_nil in Hnil.
    + done.
  - intros Hid. apply classifyChain_cosmos in Hid as [Hnil|(chain & _ & _ & Hreq & _)].
    + by apply elem_of_nil in Hnil.
    + done.
Qed.

(** Of the requested chains 1, "solana" and "osmosis-1", Solana, whose
    family is neither EVM nor Cosmos, is put with the EVM chains. *)
Lemma chainIdsByFamily_witness :
  Squid.chainIdsByFamily (Squid.chains Sample.ready)
    (String_ <$> [IdStr "1"; IdStr "solana"; IdStr "osmosis-1"]) =
    ([IdNum 1; IdStr "solana"], [IdStr "osmosis-1"]) ∧
  IdStr "solana" ∈
    (Squid.chainIdsByFamily (Squid.chains Sample.ready)
       (String_ <$> [IdStr "1"; IdStr "solana"; IdStr "osmosis-1"])).1.
Proof.
  split; [vm_compute; reflexivity|].
  destruct (chainIdsByFamily_partition Sample.ready
              (Some [IdStr "1"; IdStr "solana"; IdStr "osmosis-1"])) as (Hevm & _).
  apply (Hevm Sample.solana).
  - apply elem_of_cons; right. apply elem_of_cons; right. apply elem_of_cons; by left.
  - apply elem_of_cons; right. apply elem_of_cons; by left.
  - discriminate.
Defined.

Section AllBalances.
Context `{TokensChains} `{ChainUtils}.

(** The two groups are what [getAllBalances] asks the handlers about. *)
Lemma getAllBalances_uses_groups (env : Env) (this : Squid.t)
    (chainIds : option (list ChainId)) (cosmosAddresses : list CosmosAddress)
    (evmAddress : string) (evm_ : list TokenBalance) :
  evmAddress ≠ "" →
  let groups := Squid.chainIdsByFamily (Squid.chains this)
                  (String_ <$> default [] chainIds) in
  env _ (EvmGetBalances (getEvmTokensForChainIds groups.1 (Squid.tokens this))
           evmAddress (getChainRpcUrls (Squid.chains this))) = Ok evm_ →
  (run env (Squid.getAllBalances this chainIds (Some cosmosAddresses) (Some evmAddress))).1 =
    [Log (EvmGetBalances (getEvmTokensForChainIds groups.1 (Squid.tokens this))
            evmAddress (getChainRpcUrls (Squid.chains this)));
     Log (CosmosGetBalances cosmosAddresses
            (getCosmosChainsForChainIds groups.2 (Squid.chains this)))].
Proof.
  intros Hne groups Hevm. subst groups. unfold Squid.getAllBalances.
  destruct (Squid.chainIdsByFamily _ _) as [evmIds cosmosIds]. simpl in *.
  apply String.eqb_neq in Hne. rewrite Hne. simpl. rewrite Hevm.
  by destruct (env _ (CosmosGetBalances _ _)).
Qed.

End AllBalances.

(** ** The normalised route plan *)

Section MapResult.
Context {A B : Type} (f : A → Result B).

Lemma mapM_Ok_Forall2 (l : list A) (k : list B) :
  mapM f l = Ok k → Forall2 (λ x y, f x = Ok y) l k.
Proof.
  revert k. induction l as [|x l IH]; intros k; simpl.
  - intros [= <-]. constructor.
  - destruct (f x) as [y|e] eqn:Hx; simpl; [|discriminate].
    destruct (mapM f l) as [k'|e]; simpl; [|discriminate].
    intros [= <-]. constructor; [done|]. by apply IH.
Qed.

Lemma mapM_Ok_total (l : list A) :
  Forall (λ x, ∃ y, f x = Ok y) l → ∃ k, mapM f l = Ok k.
Proof.
  induction 1 as [|x l [y Hx] _ [k Hk]]; simpl.
  - by exists [].
  - rewrite Hx; simpl. rewrite Hk; simpl. by exists (y :: k).
Qed.

End MapResult.

Section RetainedCalls.
Variable removeEmpty : JsObj → JsObj.

Lemma isStr_eq (v : JsVal) (s : string) : isStr v s = true ↔ v = JStr s.
Proof.
  destruct v; simpl; try (split; [discriminate|intros [=]]).
  rewrite String.eqb_eq. split; [by intros ->|by intros [= ->]].
Qed.

(** The [filter] keeps a call exactly when its tag is one of the three. *)
Lemma isRetained_tag (call : JsObj) :
  isRetained call = true ↔
  get call "type" = JStr CallType.BRIDGE ∨
  get call "type" = JStr CallType.SWAP ∨
  get call "type" = JStr CallType.CUSTOM.
Proof.
  unfold isRetained. simpl. rewrite !orb_true_iff, !isStr_eq. naive_solver.
Qed.

(** A retained call is parsed into an object, unless it is a swap whose
    [dex] cannot be destructured. *)
Lemma parseCall_retained (call : JsObj) :
  isRetained call = true →
  (get call "type" = JStr CallType.SWAP →
     get call "dex" ≠ JUndefined ∧ get call "dex" ≠ JNull) →
  ∃ o, parseCall removeEmpty call = Ok (JObj o).
Proof.
  intros Hret Hdex. apply isRetained_tag in Hret. unfold parseCall. cbn zeta.
  destruct (isStr (get call "type") CallType.BRIDGE) eqn:Hb; [by eexists|].
  destruct (isStr (get call "type") CallType.SWAP) eqn:Hs.
  - apply isStr_eq in Hs. destruct (Hdex Hs) as [Hu Hn]. unfold parseSwap.
    destruct (get call "dex"); try done; by eexists.
  - destruct (isStr (get call "type") CallType.CUSTOM) eqn:Hc; [by eexists|].
    destruct Hret as [Ht|[Ht|Ht]]; apply isStr_eq in Ht; congruence.
Qed.

Lemma parseCall_object (call : JsObj) (parsed : JsVal) :
  isRetained call = true → parseCall removeEmpty call = Ok parsed →
  ∃ o, parsed = JObj o.
Proof.
  intros Hret Hcall. apply isRetained_tag in Hret.
  unfold parseCall in Hcall. cbn zeta in Hcall.
  destruct (isStr (get call "type") CallType.BRIDGE) eqn:Hb; [injection Hcall as <-; eauto|].
  destruct (isStr (get call "type") CallType.SWAP) eqn:Hs.
  { destruct (parseSwap removeEmpty call) as [o|e]; [|discriminate].
    injection Hcall as <-. eauto. }
  destruct (isStr (get call "type") CallType.CUSTOM) eqn:Hc; [injection Hcall as <-; eauto|].
  destruct Hret as [Ht|[Ht|Ht]]; apply isStr_eq in Ht; congruence.
Qed.

Lemma parsed_plan_entries (calls : list JsObj) (plan : list JsVal) :
  Forall (λ call, isRetained call = true) calls →
  Forall2 (λ call parsed, parseCall removeEmpty call = Ok parsed) calls plan →
  Forall2 (λ call parsed, ∃ o, parsed = JObj o ∧ parseCall removeEmpty call = Ok parsed)
    calls plan.
Proof.
  intros Hall Hplan. induction Hplan as [|call parsed calls plan Hcall _ IH]; [constructor|].
  inversion Hall as [|? ? Hret Hrest]; subst. constructor; [|by apply IH].
  destruct (parseCall_object call parsed Hret Hcall) as [o ->]. eauto.
Qed.

(** C8: the normalised plan has one entry for every raw call that the
    filter retains, in order, each the parse of that call, and the filter
    retains a raw call if and only if its tag is one of Bridge, Swap and
    Custom; calls with any other tag are dropped without an error: they
    put no condition on [parseRoute] returning a plan. *)
Theorem parseRoute_retains_known_tags (data : list JsObj) :
  (∀ call, call ∈ List.filter isRetained data ↔
     call ∈ data ∧
     (get call "type" = JStr CallType.BRIDGE ∨
      get call "type" = JStr CallType.SWAP ∨
      get call "type" = JStr CallType.CUSTOM)) ∧
  (∀ plan, parseRoute removeEmpty data = Ok plan →
     Forall2 (λ call parsed, ∃ o, parsed = JObj o ∧ parseCall removeEmpty call = Ok parsed)
       (List.filter isRetained data) plan) ∧
  ((∀ call, call ∈ data → get call "type" = JStr CallType.SWAP →
      get call "dex" ≠ JUndefined ∧ get call "dex" ≠ JNull) →
   ∃ plan, parseRoute removeEmpty data = Ok plan).
Proof.
  assert (∀ call, call ∈ List.filter isRetained data ↔
            call ∈ data ∧ isRetained call = true) as Hfilter.
  { intros call. rewrite !list_elem_of_In, filter_In. done. }
  split; [|split].
  - intros call. rewrite Hfilter, isRetained_tag. done.
  - intros plan Hplan. unfold parseRoute in Hplan.
    apply mapM_Ok_Forall2 in Hplan. apply parsed_plan_entries; [|done].
    apply Forall_forall. intros call Hin. by apply Hfilter in Hin as [_ ?].
  - intros Hdex. unfold parseRoute. apply mapM_Ok_total.
    apply Forall_forall. intros call Hin. apply Hfilter in Hin as [Hin Hret].
    destruct (parseCall_retained call Hret (Hdex call Hin)) as [o Ho]. eauto.
Qed.

End RetainedCalls.

(** Of the five raw calls, the one tagged FEE and the one without a tag
    are dropped; the bridge, the swap and the custom call are kept, in
    order. *)
Lemma parseRoute_witness :
  List.filter isRetained SampleCalls.raw =
    [SampleCalls.bridge; SampleCalls.swap; SampleCalls.custom] ∧
  ∃ plan, parseRoute dropUndefined SampleCalls.raw = Ok plan ∧ length plan = 3%nat.
Proof.
  destruct (parseRoute_retains_known_tags dropUndefined SampleCalls.raw)
    as (_ & Hentries & Htotal).
  split; [vm_compute; reflexivity|].
  destruct Htotal as [plan Hplan].
  - intros call Hin Hswap.
    repeat (apply elem_of_cons in Hin as [->|Hin]); try discriminate Hswap.
    + split; discriminate.
    + by apply elem_of_nil in Hin.
  - exists plan. split; [exact Hplan|].
    apply Hentries, Forall2_length in Hplan. rewrite <- Hplan. reflexivity.
Defined.

(** * Further properties of the code *)

(** ** Initialisation and the status and route requests *)

(** X1: [init] makes one request, to [v2/sdk-info].  Answered with status
    200 it returns the SDK with [initialized] set, the same HTTP adapter
    and the tokens and chains of the answer in place of the old ones, and
    a [getRoute] that follows reaches the routing service; answered with
    any other status it throws "SDK initialization failed" and a
    [getRoute] chained after it is never started. *)
Theorem init_outcome (env : Env) (this : Squid.t) (response : SdkInfoResponse.t)
    (params : RouteRequest.t) :
  env _ (HttpGet (Squid.httpInstance this) "v2/sdk-info") = Ok response →
  (SdkInfoResponse.status response = 200 →
     ∃ ready,
       run env (Squid.init this) =
         ([Log (HttpGet (Squid.httpInstance this) "v2/sdk-info")], Ok ready) ∧
       Squid.initialized ready = true ∧
       Squid.httpInstance ready = Squid.httpInstance this ∧
       Squid.tokens ready = SdkInfo.tokens (SdkInfoResponse.data response) ∧
       Squid.chains ready = SdkInfo.chains (SdkInfoResponse.data response) ∧
       (run env (ready' ← Squid.init this; Squid.getRoute ready' params)).1 =
         [Log (HttpGet (Squid.httpInstance this) "v2/sdk-info");
          Log (HttpPost (Squid.httpInstance this) "v2/route" params)]) ∧
  (SdkInfoResponse.status response ≠ 200 →
     run env (ready' ← Squid.init this; Squid.getRoute ready' params) =
       ([Log (HttpGet (Squid.httpInstance this) "v2/sdk-info")],
        Thrown (Err "SDK initialization failed"))).
Proof.
  intros Hget. split; intros Hstatus.
  - eexists. unfold Squid.init. simpl. rewrite Hget, Hstatus. simpl.
    repeat split.
    destruct (env _ (HttpPost _ _ _)) as [r|e]; [|done].
    by destruct (negb (HttpResponse.status r =? 200)).
  - apply Z.eqb_neq in Hstatus. unfold Squid.init. simpl.
    by rewrite Hget, Hstatus.
Qed.

Lemma init_outcome_witness :
  (run sampleEnv (ready ← Squid.init Sample.fresh;
                  Squid.getRoute ready (Sample.request (IdNum 1) "0xA0b8"))).1 =
    [Log (HttpGet Sample.http "v2/sdk-info");
     Log (HttpPost Sample.http "v2/route" (Sample.request (IdNum 1) "0xA0b8"))].
Proof.
  destruct (init_outcome sampleEnv Sample.fresh Sample.sdkInfo
              (Sample.request (IdNum 1) "0xA0b8") eq_refl) as [Hok _].
  destruct (Hok eq_refl) as (ready & _ & _ & _ & _ & _ & Htrace).
  exact Htrace.
Defined.

(** X2: the request [getStatus] sends carries the adapter's common
    headers, except that a truthy [requestId] or [integratorId] of the
    call sets [x-request-id] or [x-integrator-id], overriding the common
    header of that name; a falsy one leaves the common header alone. *)
Theorem getStatus_request_headers (env : Env) (this : Squid.t) (params : GetStatus.t) :
  ∃ headers,
    (run env (Squid.getStatus this params)).1 =
      [Log (AxiosGet (Squid.httpInstance this) "/v1/status" params headers)] ∧
    headers !! "x-integrator-id" =
      (if truthy (GetStatus.integratorId params)
       then Some (GetStatus.integratorId params)
       else default ∅ (HttpAdapter.commonHeaders (Squid.httpInstance this))
              !! "x-integrator-id") ∧
    headers !! "x-request-id" =
      (if truthy (GetStatus.requestId params)
       then Some (GetStatus.requestId params)
       else default ∅ (HttpAdapter.commonHeaders (Squid.httpInstance this))
              !! "x-request-id") ∧
    ∀ k, k ≠ "x-integrator-id" → k ≠ "x-request-id" →
      headers !! k =
        default ∅ (HttpAdapter.commonHeaders (Squid.httpInstance this)) !! k.
Proof.
  eexists. split.
  { unfold Squid.getStatus. simpl. by destruct (env _ _). }
  unfold spreadIf. repeat split.
  - destruct (truthy (GetStatus.integratorId params)).
    + by rewrite lookup_union, lookup_singleton_eq, union_Some_l.
    + rewrite (left_id_L ∅ (∪)).
      destruct (truthy (GetStatus.requestId params)).
      * rewrite lookup_union, lookup_singleton_ne by done. by rewrite (left_id_L None _).
      * by rewrite (left_id_L ∅ (∪)).
  - destruct (truthy (GetStatus.integratorId params)).
    + rewrite lookup_union, lookup_singleton_ne by done. rewrite (left_id_L None _).
      destruct (truthy (GetStatus.requestId params)).
      * by rewrite lookup_union, lookup_singleton_eq, union_Some_l.
      * by rewrite (left_id_L ∅ (∪)).
    + rewrite (left_id_L ∅ (∪)).
      destruct (truthy (GetStatus.requestId params)).
      * by rewrite lookup_union, lookup_singleton_eq, union_Some_l.
      * by rewrite (left_id_L ∅ (∪)).
  - intros k Hi Hr.
    destruct (truthy (GetStatus.integratorId params)),
             (truthy (GetStatus.requestId params));
      rewrite ?(left_id_L ∅ (∪)), ?lookup_union, ?lookup_singleton_ne by done;
      by rewrite ?(left_id_L None _).
Qed.

(** The object [{...data, requestId, integratorId}] built from an
    answer. *)
Lemma augmented_lookup (data : JsObj) (headers : option JsObj) (k : string) :
  <["integratorId" := headerOf headers "x-integrator-id"]>
    (<["requestId" := headerOf headers "x-request-id"]> data) !! k =
  if decide (k = "integratorId") then Some (headerOf headers "x-integrator-id")
  else if decide (k = "requestId") then Some (headerOf headers "x-request-id")
  else data !! k.
Proof.
  destruct (decide (k = "integratorId")) as [->|Hi]; [by rewrite lookup_insert_eq|].
  rewrite lookup_insert_ne by done.
  destruct (decide (k = "requestId")) as [->|Hr]; [by rewrite lookup_insert_eq|].
  by rewrite lookup_insert_ne.
Qed.

(** X3: [getStatus] looks neither at the [initialized] flag nor at the
    status of the answer: whatever the answer to the one request it
    sends, with the headers it sends, it returns its body with
    [requestId] and [integratorId] set from the answer's [x-request-id]
    and [x-integrator-id] headers ([undefined] when a header, or the
    header map, is missing), replacing fields of these names in the body
    and leaving every other field of the body as it is. *)
Theorem getStatus_returns_augmented_body (env : Env) (this : Squid.t)
    (params : GetStatus.t) (response : HttpResponse.t) :
  env _ (AxiosGet (Squid.httpInstance this) "/v1/status" params
           (spreadIf (GetStatus.integratorId params) "x-integrator-id" ∪
            (spreadIf (GetStatus.requestId params) "x-request-id" ∪
             default ∅ (HttpAdapter.commonHeaders (Squid.httpInstance this))))) =
    Ok response →
  ∃ result,
    (run env (Squid.getStatus this params)).2 = Ok result ∧
    result !! "requestId" =
      Some (headerOf (HttpResponse.headers response) "x-request-id") ∧
    result !! "integratorId" =
      Some (headerOf (HttpResponse.headers response) "x-integrator-id") ∧
    ∀ k, k ≠ "requestId" → k ≠ "integratorId" →
      result !! k = HttpResponse.data response !! k.
Proof.
  intros Hanswer. eexists. split.
  { unfold Squid.getStatus. simpl. rewrite Hanswer. reflexivity. }
  repeat split; [| |intros k Hr Hi]; rewrite augmented_lookup;
    repeat case_decide; congruence.
Qed.

Lemma getStatus_witness :
  ∃ result,
    (run sampleEnv (Squid.getStatus Sample.fresh Sample.status)).2 = Ok result ∧
    result !! "requestId" = Some (JStr "r-1") ∧
    result !! "integratorId" = Some JUndefined ∧
    result !! "route" = Some JNull.
Proof.
  destruct (getStatus_returns_augmented_body sampleEnv Sample.fresh Sample.status
              SampleEnv.okResponse eq_refl)
    as (result & Hrun & Hreq & Hint & Hrest).
  exists result. split; [exact Hrun|]. split; [exact Hreq|]. split; [exact Hint|].
  rewrite Hrest by discriminate. reflexivity.
Defined.

(** X4: on an initialized SDK, when the routing service answers with
    status 200, [getRoute] makes that one request and returns the body
    with [requestId] and [integratorId] set from the answer's headers,
    every other field of the body unchanged; an [error] field in the
    body is not looked at. *)
Theorem getRoute_returns_augmented_body (env : Env) (this : Squid.t)
    (params : RouteRequest.t) (response : HttpResponse.t) :
  Squid.initialized this = true →
  env _ (HttpPost (Squid.httpInstance this) "v2/route" params) = Ok response →
  HttpResponse.status response = 200 →
  ∃ result,
    run env (Squid.getRoute this params) =
      ([Log (HttpPost (Squid.httpInstance this) "v2/route" params)], Ok result) ∧
    result !! "requestId" =
      Some (headerOf (HttpResponse.headers response) "x-request-id") ∧
    result !! "integratorId" =
      Some (headerOf (HttpResponse.headers response) "x-integrator-id") ∧
    ∀ k, k ≠ "requestId" → k ≠ "integratorId" →
      result !! k = HttpResponse.data response !! k.
Proof.
  intros Hinit Hpost Hstatus. eexists. split.
  { unfold Squid.getRoute. rewrite (validateInit_true this Hinit). simpl.
    rewrite Hpost, Hstatus. reflexivity. }
  repeat split; [| |intros k Hr Hi]; rewrite augmented_lookup;
    repeat case_decide; congruence.
Qed.

Lemma getRoute_ok_witness :
  ∃ result,
    run sampleEnv (Squid.getRoute Sample.ready (Sample.request (IdNum 1) "0xA0b8")) =
      ([Log (HttpPost Sample.http "v2/route" (Sample.request (IdNum 1) "0xA0b8"))],
       Ok result) ∧
    result !! "requestId" = Some (JStr "r-1") ∧
    result !! "route" = Some JNull.
Proof.
  destruct (getRoute_returns_augmented_body sampleEnv Sample.ready
              (Sample.request (IdNum 1) "0xA0b8") SampleEnv.okResponse
              eq_refl eq_refl eq_refl)
    as (result & Hrun & Hreq & _ & Hrest).
  exists result. split; [exact Hrun|]. split; [exact Hreq|].
  rewrite Hrest by discriminate. reflexivity.
Defined.

(** X5: on an initialized SDK, an answer of the routing service with a
    status other than 200 always makes [getRoute] throw an [Error], after
    that one request and without a result; its message is empty when the
    body has no [error] field or an [undefined] one, the string itself
    when [error] is a string, and "null" when [error] is [null]. *)
Theorem getRoute_non_200_always_throws (env : Env) (this : Squid.t)
    (params : RouteRequest.t) (response : HttpResponse.t) :
  Squid.initialized this = true →
  env _ (HttpPost (Squid.httpInstance this) "v2/route" params) = Ok response →
  HttpResponse.status response ≠ 200 →
  ∃ msg,
    run env (Squid.getRoute this params) =
      ([Log (HttpPost (Squid.httpInstance this) "v2/route" params)], Thrown (Err msg)) ∧
    (HttpResponse.data response !! "error" = None → msg = "") ∧
    (HttpResponse.data response !! "error" = Some JUndefined → msg = "") ∧
    (∀ text, HttpResponse.data response !! "error" = Some (JStr text) → msg = text) ∧
    (HttpResponse.data response !! "error" = Some JNull → msg = "null").
Proof.
  intros Hinit Hpost Hstatus. apply Z.eqb_neq in Hstatus.
  assert (∃ msg, newError (get (HttpResponse.data response) "error") = Err msg)
    as [msg Hmsg].
  { unfold newError. destruct (get _ _); by eexists. }
  exists msg. split; [|split; [|split; [|split]]].
  - unfold Squid.getRoute. rewrite (validateInit_true this Hinit). simpl.
    rewrite Hpost, Hstatus. simpl. by rewrite Hmsg.
  - intros Hnone. unfold get in Hmsg. rewrite Hnone in Hmsg. simpl in Hmsg. congruence.
  - intros Hu. unfold get in Hmsg. rewrite Hu in Hmsg. simpl in Hmsg. congruence.
  - intros text Ht. unfold get in Hmsg. rewrite Ht in Hmsg. simpl in Hmsg. congruence.
  - intros Hn. unfold get in Hmsg. rewrite Hn in Hmsg. simpl in Hmsg. congruence.
Qed.

Lemma getRoute_non_200_witness :
  run (SampleEnv.answering 0
         {| HttpResponse.data := ∅; HttpResponse.headers := None;
            HttpResponse.status := 500 |})
    (Squid.getRoute Sample.ready (Sample.request (IdNum 1) "0xA0b8")) =
    ([Log (HttpPost Sample.http "v2/route" (Sample.request (IdNum 1) "0xA0b8"))],
     Thrown (Err "")).
Proof.
  destruct (getRoute_non_200_always_throws
              (SampleEnv.answering 0
                 {| HttpResponse.data := ∅; HttpResponse.headers := None;
                    HttpResponse.status := 500 |})
              Sample.ready (Sample.request (IdNum 1) "0xA0b8")
              {| HttpResponse.data := ∅; HttpResponse.headers := None;
                 HttpResponse.status := 500 |} eq_refl eq_refl)
    as (msg & Hrun & Hempty & _); [discriminate|].
  rewrite Hrun, (Hempty eq_refl). reflexivity.
Defined.

(** ** The resolver and the dispatching operations *)

Section ResolverProperties.
Context `{TokensChains}.

(** X6: the resolver throws exactly the error of the first lookup that
    misses, in the order source chain, destination chain, source token,
    destination token, and throws nothing else. *)
Theorem populateRouteParams_throws_first_miss (this : Squid.t)
    (params : RouteRequest.t) (signer : option EvmWallet) (e : Error) :
  let chain := getChainData (Squid.tokens this) (Squid.chains this) in
  let token := getTokenData (Squid.tokens this) (Squid.chains this) in
  Squid.populateRouteParams this params signer = Thrown e ↔
    chain (RouteRequest.fromChain params) = Thrown e ∨
    (is_Ok (chain (RouteRequest.fromChain params)) ∧
     chain (RouteRequest.toChain params) = Thrown e) ∨
    (is_Ok (chain (RouteRequest.fromChain params)) ∧
     is_Ok (chain (RouteRequest.toChain params)) ∧
     token (RouteRequest.fromToken params) (RouteRequest.fromChain params) = Thrown e) ∨
    (is_Ok (chain (RouteRequest.fromChain params)) ∧
     is_Ok (chain (RouteRequest.toChain params)) ∧
     is_Ok (token (RouteRequest.fromToken params) (RouteRequest.fromChain params)) ∧
     token (RouteRequest.toToken params) (RouteRequest.toChain params) = Thrown e).
Proof.
  intros chain token. subst chain token.
  unfold Squid.populateRouteParams, is_Ok. cbn zeta.
  destruct (getChainData _ _ (RouteRequest.fromChain params)) as [c1|e1]; simpl;
    [|naive_solver].
  destruct (getChainData _ _ (RouteRequest.toChain params)) as [c2|e2]; simpl;
    [|naive_solver].
  destruct (getTokenData _ _ (RouteRequest.fromToken params) _) as [t1|e3]; simpl;
    [|naive_solver].
  destruct (getTokenData _ _ (RouteRequest.toToken params) _) as [t2|e4]; simpl;
    naive_solver.
Qed.

Lemma populateRouteParams_runner (this : Squid.t) (params : RouteRequest.t)
    (signer : option EvmWallet) (resolved : RouteParamsPopulated.t) :
  Squid.populateRouteParams this params signer = Ok resolved →
  ∀ c, RouteParamsPopulated.fromTokenContract resolved = Some c →
    contractRunner c =
      match signer with
      | Some w => RunSigner w
      | None => RunProvider (RouteParamsPopulated.fromProvider resolved)
      end.
Proof.
  unfold Squid.populateRouteParams. cbn zeta.
  destruct (getChainData _ _ (RouteRequest.fromChain params)) as [c1|]; simpl; [|done].
  destruct (getChainData _ _ (RouteRequest.toChain params)) as [c2|]; simpl; [|done].
  destruct (getTokenData _ _ (RouteRequest.fromToken params) _) as [t1|]; simpl; [|done].
  destruct (getTokenData _ _ (RouteRequest.toToken params) _) as [t2|]; simpl; [|done].
  intros [= <-] c. simpl.
  destruct (String.eqb (Token.address t1) nativeTokenConstant); simpl; [done|].
  by intros [= <-].
Qed.


End ResolverProperties.

(** The source chain is looked up first: with an unknown source chain
    and an unknown destination token, the error names the chain. *)
Lemma populateRouteParams_miss_witness :
  Squid.populateRouteParams (H := metadataStore) Sample.ready
    {| RouteRequest.fromChain := IdNum 999; RouteRequest.toChain := IdNum 1;
       RouteRequest.fromToken := "0xA0b8"; RouteRequest.toToken := "0xNone";
       RouteRequest.fromAmount := "1"; RouteRequest.toAddress := "0xBob";
       RouteRequest.rest := ∅ |} None =
    Thrown (Err "Could not find chain with 999").
Proof.
  apply (populateRouteParams_throws_first_miss (H := metadataStore)).
  left. reflexivity.
Defined.


Section DispatchProperties.
Context `{TokensChains} `{ChainUtils}.

(** X8: when both validations pass and the resolver throws, each of
    [executeRoute], [approveRoute] and [isRouteApproved] fails with the
    resolver's error without having made any call: no handler sees a
    route whose chains or tokens are unknown. *)
Theorem resolver_error_stops_dispatch (env : Env) (this : Squid.t) (c : PublicCall)
    (route : Route.t) (signer : option EvmWallet) (e : Error) :
  Squid.initialized this = true →
  dispatchArgs c = Some (route, signer) →
  is_Some (Route.transactionRequest route) →
  Squid.populateRouteParams this (Route.params route) signer = Thrown e →
  failedAtOnce e (runCall env this c).
Proof.
  intros Hinit Hargs Htx Hpop. unfold failedAtOnce.
  destruct c; try discriminate Hargs; simpl in Hargs; injection Hargs as <- <-;
    unfold runCall;
    [ unfold Squid.executeRoute | unfold Squid.isRouteApproved
    | unfold Squid.approveRoute ];
    rewrite (validateInit_true this Hinit); simpl;
    rewrite (validateTransactionRequest_Some _ Htx); simpl;
    by rewrite Hpop.
Qed.

(** X9: once both validations pass and the resolver returns,
    [executeRoute] makes exactly one call, [executeRoute] of the EVM
    handler on the EVM family and of the Cosmos handler on the Cosmos
    family, with the caller's data unchanged and the resolved
    parameters, and its outcome, value or failure, is that call's. *)
Theorem executeRoute_delegates (env : Env) (this : Squid.t) (data : ExecuteRoute.t)
    (params : RouteParamsPopulated.t) :
  resolvesTo this (CallExecuteRoute data) params →
  (resolvedChainType params = ChainType.EVM →
     run env (Squid.executeRoute this data) =
       ([Log (EvmExecuteRoute data params)], env _ (EvmExecuteRoute data params))) ∧
  (resolvedChainType params = ChainType.COSMOS →
     run env (Squid.executeRoute this data) =
       ([Log (CosmosExecuteRoute data params)], env _ (CosmosExecuteRoute data params))).
Proof.
  intros (Hinit & route & signer & Hargs & Htx & Hpop).
  simpl in Hargs. injection Hargs as <- <-.
  unfold resolvedChainType, Squid.executeRoute.
  rewrite (validateInit_true this Hinit); simpl.
  rewrite (validateTransactionRequest_Some _ Htx); simpl.
  rewrite Hpop; simpl.
  split; intros ->; simpl; by destruct (env _ _).
Qed.

(** X10: once both validations pass and the resolver returns an EVM
    source chain, [approveRoute] hands the caller's data and the resolved
    parameters to the EVM handler, and [isRouteApproved] hands it the
    sender, the parameters and the [target] of the route's transaction
    request; each makes that one call and its outcome is the call's.
    [isRouteApproved] resolves without a signer, so a contract handle in
    the parameters it passes runs on the read provider. *)
Theorem approval_delegates (env : Env) (this : Squid.t) (data : ExecuteRoute.t)
    (route : Route.t) (sender : string) (tx : SquidData)
    (params paramsRead : RouteParamsPopulated.t) :
  resolvesTo this (CallApproveRoute data) params →
  resolvesTo this (CallIsRouteApproved route sender) paramsRead →
  Route.transactionRequest route = Some tx →
  resolvedChainType params = ChainType.EVM →
  resolvedChainType paramsRead = ChainType.EVM →
  run env (Squid.approveRoute this data) =
    ([Log (EvmApproveRoute data params)], env _ (EvmApproveRoute data params)) ∧
  run env (Squid.isRouteApproved this route sender) =
    ([Log (EvmIsRouteApproved sender paramsRead (target tx))],
     env _ (EvmIsRouteApproved sender paramsRead (target tx))) ∧
  (∀ c, RouteParamsPopulated.fromTokenContract paramsRead = Some c →
     contractRunner c = RunProvider (RouteParamsPopulated.fromProvider paramsRead)).
Proof.
  intros (Hinit & r1 & s1 & Hargs1 & Htx1 & Hpop1)
         (_ & r2 & s2 & Hargs2 & Htx2 & Hpop2) Htx Hct1 Hct2.
  simpl in Hargs1, Hargs2. injection Hargs1 as <- <-. injection Hargs2 as <- <-.
  unfold resolvedChainType in *. split; [|split].
  - unfold Squid.approveRoute.
    rewrite (validateInit_true this Hinit); simpl.
    rewrite (validateTransactionRequest_Some _ Htx1); simpl.
    rewrite Hpop1; simpl. rewrite Hct1; simpl. by destruct (env _ _).
  - unfold Squid.isRouteApproved.
    rewrite (validateInit_true this Hinit); simpl.
    rewrite (validateTransactionRequest_Some _ Htx2); simpl.
    rewrite Hpop2; simpl. rewrite Hct2, Htx; simpl. by destruct (env _ _).
  - intros c Hc. exact (populateRouteParams_runner this _ None paramsRead Hpop2 c Hc).
Qed.

End DispatchProperties.

Lemma resolver_error_witness :
  failedAtOnce (Err "Could not find chain with 999")
    (sampleRun sampleEnv Sample.ready
       (CallExecuteRoute
          (Sample.execute (Sample.route (Some Sample.legacyTx) (IdNum 999) "0xA0b8")))).
Proof.
  apply (resolver_error_stops_dispatch (H := metadataStore) (H0 := sampleChainUtils)
           sampleEnv Sample.ready _
           (Sample.route (Some Sample.legacyTx) (IdNum 999) "0xA0b8") (Some Sample.alice));
    [reflexivity | reflexivity | eexists; reflexivity | reflexivity].
Defined.

(** A route from OSMO on Osmosis goes to the Cosmos handler, whose
    answer is returned. *)
Lemma executeRoute_delegates_witness :
  run sampleEnv
    (Squid.executeRoute (H := metadataStore) Sample.ready
       (Sample.execute (Sample.route (Some Sample.legacyTx) (IdStr "osmosis-1") "uosmo"))) =
    ([Log (CosmosExecuteRoute
             (Sample.execute (Sample.route (Some Sample.legacyTx) (IdStr "osmosis-1") "uosmo"))
             (Sample.populated Sample.osmosis Sample.osmo false))],
     Ok (JStr "cosmos-tx")).
Proof.
  destruct (executeRoute_delegates (H := metadataStore) sampleEnv Sample.ready
              (Sample.execute (Sample.route (Some Sample.legacyTx) (IdStr "osmosis-1") "uosmo"))
              (Sample.populated Sample.osmosis Sample.osmo false)) as [_ Hcosmos].
  - split; [reflexivity|]. eexists _, _.
    split; [reflexivity|]. split; [eexists; reflexivity|reflexivity].
  - apply Hcosmos. reflexivity.
Defined.

(** [isRouteApproved] for a route from USDC on Ethereum: the contract
    handle passed to the EVM handler runs on the read provider. *)
Lemma approval_delegates_witness :
  run sampleEnv
    (Squid.isRouteApproved (H := metadataStore) Sample.ready
       (Sample.route (Some Sample.legacyTx) (IdNum 1) "0xA0b8") "0xAlice") =
    ([Log (EvmIsRouteApproved "0xAlice"
             {| RouteParamsPopulated.params := Sample.request (IdNum 1) "0xA0b8";
                RouteParamsPopulated.fromChain := Sample.ethereum;
                RouteParamsPopulated.toChain := Sample.ethereum;
                RouteParamsPopulated.fromToken := Sample.usdc;
                RouteParamsPopulated.toToken := Sample.eth;
                RouteParamsPopulated.fromTokenContract :=
                  Some {| contractAddress := "0xA0b8"; contractAbi := erc20Abi;
                          contractRunner :=
                            RunProvider {| providerUrl := "https://eth.example" |} |};
                RouteParamsPopulated.fromProvider :=
                  {| providerUrl := "https://eth.example" |};
                RouteParamsPopulated.fromIsNative := false |}
             (JStr "0xRouter"))],
     Ok {| isApproved := true; message := "ok" |}).
Proof.
  eapply (approval_delegates (H := metadataStore) sampleEnv Sample.ready
            (Sample.execute (Sample.route (Some Sample.legacyTx) (IdNum 1) "0xA0b8"))
            (Sample.route (Some Sample.legacyTx) (IdNum 1) "0xA0b8") "0xAlice"
            Sample.legacyTx (Sample.populated Sample.ethereum Sample.usdc false)).
  - split; [reflexivity|]. eexists _, _.
    split; [reflexivity|]. split; [eexists; reflexivity|reflexivity].
  - split; [reflexivity|]. eexists _, _.
    split; [reflexivity|]. split; [eexists; reflexivity|reflexivity].
  - reflexivity.
  - reflexivity.
  - reflexivity.
Defined.

(** ** Balances of several chains *)

Section GroupsInOrder.
Variable normalizedChainIds : list string.

Lemma classifyChain_fold (chains_ : list ChainData.t) (acc : list ChainId * list ChainId) :
  fold_left (Squid.classifyChain normalizedChainIds) chains_ acc =
    ((acc.1 ++ (ChainData.chainId <$>
                  List.filter (λ c, isRequested normalizedChainIds c && negb (isCosmosChain c)) chains_))%list,
     (acc.2 ++ (ChainData.chainId <$>
                  List.filter (λ c, isRequested normalizedChainIds c && isCosmosChain c) chains_))%list).
Proof.
  revert acc. induction chains_ as [|chain rest IH]; intros [evmIds cosmosIds]; simpl.
  - by rewrite !app_nil_r.
  - rewrite IH. unfold Squid.classifyChain, isRequested, isCosmosChain.
    destruct (bool_decide _); simpl; [|done].
    destruct (String.eqb _ _); simpl; by rewrite <- ?app_assoc.
Qed.

(** X11: the two groups of [getAllBalances] are the identifiers of the
    requested known chains that are not of the Cosmos family, and of
    those that are, each in the order of the metadata and as often as the
    chain occurs there; so every requested known chain is in exactly one
    group, and an empty request gives two empty groups. *)
Theorem chainIdsByFamily_in_order (chains_ : list ChainData.t) :
  Squid.chainIdsByFamily chains_ normalizedChainIds =
    (ChainData.chainId <$> List.filter (λ c, isRequested normalizedChainIds c && negb (isCosmosChain c)) chains_,
     ChainData.chainId <$> List.filter (λ c, isRequested normalizedChainIds c && isCosmosChain c) chains_) ∧
  (length (Squid.chainIdsByFamily chains_ normalizedChainIds).1 +
   length (Squid.chainIdsByFamily chains_ normalizedChainIds).2 =
   length (List.filter (isRequested normalizedChainIds) chains_))%nat ∧
  (normalizedChainIds = [] → Squid.chainIdsByFamily chains_ normalizedChainIds = ([], [])).
Proof.
  assert (Squid.chainIdsByFamily chains_ normalizedChainIds =
    (ChainData.chainId <$> List.filter (λ c, isRequested normalizedChainIds c && negb (isCosmosChain c)) chains_,
     ChainData.chainId <$> List.filter (λ c, isRequested normalizedChainIds c && isCosmosChain c) chains_)) as Heq.
  { unfold Squid.chainIdsByFamily. by rewrite classifyChain_fold. }
  split; [exact Heq|]. rewrite Heq. simpl. split.
  - rewrite !length_fmap. clear Heq.
    induction chains_ as [|chain rest IH]; simpl; [done|].
    destruct (isRequested normalizedChainIds chain); simpl; [|done].
    destruct (isCosmosChain chain); simpl; lia.
  - intros Hnil. clear Heq.
    assert (∀ c, isRequested normalizedChainIds c = false) as Hreq.
    { intros c. unfold isRequested. rewrite Hnil. apply bool_decide_eq_false, not_elem_of_nil. }
    induction chains_ as [|chain rest IH]; simpl; [done|].
    rewrite Hreq. simpl. exact IH.
Qed.

End GroupsInOrder.

Lemma chainIdsByFamily_in_order_witness :
  Squid.chainIdsByFamily (Squid.chains Sample.ready) [] = ([], []).
Proof.
  destruct (chainIdsByFamily_in_order [] (Squid.chains Sample.ready)) as (_ & _ & Hempty).
  apply Hempty. reflexivity.
Defined.

Section AllBalancesProperties.
Context `{TokensChains} `{ChainUtils}.

(** X12: [getAllBalances] asks the EVM handler only when an EVM address
    is given and not empty, and the Cosmos handler only when Cosmos
    addresses are given; with neither it makes no call at all and
    returns two empty lists, whatever chains were requested. *)
Theorem getAllBalances_skips_missing_addresses (env : Env) (this : Squid.t)
    (chainIds : option (list ChainId)) (cosmosAddresses : option (list CosmosAddress))
    (evmAddress : option string) :
  (evmAddress = None ∨ evmAddress = Some "" →
     evm ∉ handlersInvoked env
             (Squid.getAllBalances this chainIds cosmosAddresses evmAddress)) ∧
  (cosmosAddresses = None →
     cosmos ∉ handlersInvoked env
                (Squid.getAllBalances this chainIds cosmosAddresses evmAddress)) ∧
  (evmAddress = None ∨ evmAddress = Some "" → cosmosAddresses = None →
     run env (Squid.getAllBalances this chainIds cosmosAddresses evmAddress) =
       ([], Ok {| Squid.evmBalances := []; Squid.cosmosBalances := [] |})).
Proof.
  unfold handlersInvoked, Squid.getAllBalances.
  destruct (Squid.chainIdsByFamily _ _) as [evmIds cosmosIds].
  split; [|split].
  - intros [->| ->]; simpl;
      (destruct cosmosAddresses as [a|]; simpl;
       [destruct (env _ _); simpl|]; set_solver).
  - intros ->.
    destruct evmAddress as [a|]; simpl; [destruct (negb (a =? ""))%string; simpl|];
      try (destruct (env _ _); simpl); set_solver.
  - by intros [->| ->] ->.
Qed.

(** X13: the two queries are made one after the other: when the EVM
    handler fails, [getAllBalances] fails with its error and the Cosmos
    handler is not asked. *)
Theorem getAllBalances_fails_fast (env : Env) (this : Squid.t)
    (chainIds : option (list ChainId)) (cosmosAddresses : option (list CosmosAddress))
    (evmAddress : string) (e : Error) :
  evmAddress ≠ "" →
  let groups := Squid.chainIdsByFamily (Squid.chains this)
                  (String_ <$> default [] chainIds) in
  env _ (EvmGetBalances (getEvmTokensForChainIds groups.1 (Squid.tokens this))
           evmAddress (getChainRpcUrls (Squid.chains this))) = Thrown e →
  run env (Squid.getAllBalances this chainIds cosmosAddresses (Some evmAddress)) =
    ([Log (EvmGetBalances (getEvmTokensForChainIds groups.1 (Squid.tokens this))
             evmAddress (getChainRpcUrls (Squid.chains this)))],
     Thrown e).
Proof.
  intros Hne groups Hevm. subst groups. unfold Squid.getAllBalances.
  destruct (Squid.chainIdsByFamily _ _) as [evmIds cosmosIds]. simpl in *.
  apply String.eqb_neq in Hne. rewrite Hne. simpl. by rewrite Hevm.
Qed.

(** X14: when both handlers answer, [getAllBalances] returns their two
    answers as they are, the EVM one for the tokens of the EVM group and
    the Cosmos one for the chains of the Cosmos group. *)
Theorem getAllBalances_returns_answers (env : Env) (this : Squid.t)
    (chainIds : option (list ChainId)) (cosmosAddresses : list CosmosAddress)
    (evmAddress : string) (evm_ : list TokenBalance) (cosmos_ : list CosmosBalance) :
  evmAddress ≠ "" →
  let groups := Squid.chainIdsByFamily (Squid.chains this)
                  (String_ <$> default [] chainIds) in
  env _ (EvmGetBalances (getEvmTokensForChainIds groups.1 (Squid.tokens this))
           evmAddress (getChainRpcUrls (Squid.chains this))) = Ok evm_ →
  env _ (CosmosGetBalances cosmosAddresses
           (getCosmosChainsForChainIds groups.2 (Squid.chains this))) = Ok cosmos_ →
  (run env (Squid.getAllBalances this chainIds (Some cosmosAddresses)
              (Some evmAddress))).2 =
    Ok {| Squid.evmBalances := evm_; Squid.cosmosBalances := cosmos_ |}.
Proof.
  intros Hne groups Hevm Hcosmos. subst groups. unfold Squid.getAllBalances.
  destruct (Squid.chainIdsByFamily _ _) as [evmIds cosmosIds]. simpl in *.
  apply String.eqb_neq in Hne. rewrite Hne. simpl. by rewrite Hevm, Hcosmos.
Qed.

End AllBalancesProperties.

Lemma getAllBalances_no_address_witness :
  run sampleEnv
    (Squid.getAllBalances (H0 := sampleChainUtils) Sample.ready
       (Some [IdNum 1; IdStr "osmosis-1"]) None (Some "")) =
    ([], Ok {| Squid.evmBalances := []; Squid.cosmosBalances := [] |}).
Proof.
  destruct (getAllBalances_skips_missing_addresses (H0 := sampleChainUtils)
              sampleEnv Sample.ready (Some [IdNum 1; IdStr "osmosis-1"]) None (Some ""))
    as (_ & _ & Hnone).
  apply Hnone; [by right | reflexivity].
Defined.

Lemma getAllBalances_fails_fast_witness :
  (run (evmBalancesDown (Err "rpc down"))
     (Squid.getAllBalances (H0 := sampleChainUtils) Sample.ready
        (Some [IdNum 1; IdStr "osmosis-1"])
        (Some [{| coinType := 118; cosmosChainId := "osmosis-1";
                  cosmosAddress := "osmo1xyz" |}])
        (Some "0xAlice"))).2 = Thrown (Err "rpc down").
Proof.
  rewrite (getAllBalances_fails_fast (H0 := sampleChainUtils)
             (evmBalancesDown (Err "rpc down")) Sample.ready
             (Some [IdNum 1; IdStr "osmosis-1"]) _ "0xAlice" (Err "rpc down"));
    [reflexivity | discriminate | reflexivity].
Defined.

Lemma getAllBalances_returns_answers_witness :
  (run sampleEnv
     (Squid.getAllBalances (H0 := sampleChainUtils) Sample.ready
        (Some [IdNum 1; IdStr "osmosis-1"])
        (Some [{| coinType := 118; cosmosChainId := "osmosis-1";
                  cosmosAddress := "osmo1xyz" |}])
        (Some "0xAlice"))).2 =
    Ok {| Squid.evmBalances := []; Squid.cosmosBalances := [] |}.
Proof.
  apply (getAllBalances_returns_answers (H0 := sampleChainUtils) sampleEnv Sample.ready
           (Some [IdNum 1; IdStr "osmosis-1"]));
    [discriminate | reflexivity | reflexivity].
Defined.

(** ** More on the EVM handler's [Utils] *)

(** X15: balance validation is monotone in the amount: in a given
    environment, if an amount is approved then so is every smaller one,
    for a native and for a token balance alike; and an amount equal to
    the reported balance is approved, for a native balance always and
    for a token balance when the contract answers the symbol query. *)
Theorem balance_validation_monotone (env : Env) (fromProvider : RpcProvider)
    (fromTokenContract : Contract) (sender : string) (fromChain : ChainData.t)
    (amount smaller : Z) :
  smaller ≤ amount →
  (isApproved <$>
     (run env (Utils.validateNativeBalance fromProvider sender amount fromChain)).2 =
     Ok true →
   isApproved <$>
     (run env (Utils.validateNativeBalance fromProvider sender smaller fromChain)).2 =
     Ok true) ∧
  (isApproved <$>
     (run env (Utils.validateTokenBalance amount fromTokenContract sender fromChain)).2 =
     Ok true →
   isApproved <$>
     (run env (Utils.validateTokenBalance smaller fromTokenContract sender fromChain)).2 =
     Ok true) ∧
  (env _ (ProviderGetBalance fromProvider sender) = Ok amount →
   isApproved <$>
     (run env (Utils.validateNativeBalance fromProvider sender amount fromChain)).2 =
     Ok true) ∧
  (env _ (ContractBalanceOf fromTokenContract sender) = Ok amount →
   ∀ symbol, env _ (ContractSymbol fromTokenContract) = Ok symbol →
   isApproved <$>
     (run env (Utils.validateTokenBalance amount fromTokenContract sender fromChain)).2 =
     Ok true).
Proof.
  intros Hle. unfold Utils.validateNativeBalance, Utils.validateTokenBalance. simpl.
  split; [|split; [|split]].
  - destruct (env _ (ProviderGetBalance _ _)) as [balance|]; [|done].
    destruct (Z.gtb_spec amount balance); [done|].
    destruct (Z.gtb_spec smaller balance); [lia|done].
  - destruct (env _ (ContractBalanceOf _ _)) as [balance|]; [|done].
    destruct (Z.gtb_spec amount balance); [done|].
    destruct (Z.gtb_spec smaller balance); [lia|]. simpl.
    by destruct (env _ (ContractSymbol _)).
  - intros ->. destruct (Z.gtb_spec amount amount); [lia|done].
  - intros -> symbol Hsymbol. destruct (Z.gtb_spec amount amount); [lia|]. simpl.
    by rewrite Hsymbol.
Qed.

Lemma balance_validation_monotone_witness :
  isApproved <$>
    (run (SampleEnv.answering 100 SampleEnv.okResponse)
       (Utils.validateTokenBalance 40
          {| contractAddress := "0xA0b8"; contractAbi := erc20Abi;
             contractRunner := RunSigner Sample.alice |}
          "0xAlice" Sample.ethereum)).2 = Ok true.
Proof.
  destruct (balance_validation_monotone (SampleEnv.answering 100 SampleEnv.okResponse)
              {| providerUrl := "https://eth.example" |}
              {| contractAddress := "0xA0b8"; contractAbi := erc20Abi;
                 contractRunner := RunSigner Sample.alice |}
              "0xAlice" Sample.ethereum 100 40) as (_ & Htoken & _ & _); [lia|].
  apply Htoken. reflexivity.
Defined.

(** X16: [validateNativeBalance] makes one call, the balance query on the
    provider.  [validateTokenBalance] queries the contract's balance
    first and asks for the token's symbol only when the funds suffice: on
    insufficient funds, or when the balance query fails, the symbol is
    not asked for.  Neither function calls a handler or the transport. *)
Theorem balance_validation_calls (env : Env) (fromProvider : RpcProvider)
    (fromTokenContract : Contract) (sender : string) (fromChain : ChainData.t)
    (amount : Z) :
  (run env (Utils.validateNativeBalance fromProvider sender amount fromChain)).1 =
    [Log (ProviderGetBalance fromProvider sender)] ∧
  (∀ e, env _ (ContractBalanceOf fromTokenContract sender) = Thrown e →
     run env (Utils.validateTokenBalance amount fromTokenContract sender fromChain) =
       ([Log (ContractBalanceOf fromTokenContract sender)], Thrown e)) ∧
  (∀ balance, env _ (ContractBalanceOf fromTokenContract sender) = Ok balance →
     amount > balance →
     run env (Utils.validateTokenBalance amount fromTokenContract sender fromChain) =
       ([Log (ContractBalanceOf fromTokenContract sender)],
        Thrown (InsufficientBalanceError sender (ChainData.chainId fromChain)))) ∧
  (∀ balance, env _ (ContractBalanceOf fromTokenContract sender) = Ok balance →
     amount ≤ balance →
     (run env (Utils.validateTokenBalance amount fromTokenContract sender fromChain)).1 =
       [Log (ContractBalanceOf fromTokenContract sender);
        Log (ContractSymbol fromTokenContract)] ∧
     ∀ e, env _ (ContractSymbol fromTokenContract) = Thrown e →
       (run env (Utils.validateTokenBalance amount fromTokenContract sender fromChain)).2 =
         Thrown e).
Proof.
  unfold Utils.validateNativeBalance, Utils.validateTokenBalance. simpl.
  split; [|split; [|split]].
  - destruct (env _ (ProviderGetBalance _ _)) as [balance|]; [|done].
    by destruct (amount >? balance).
  - by intros e ->.
  - intros balance -> Hgt. assert ((amount >? balance) = true) as -> by lia. done.
  - intros balance -> Hle. assert ((amount >? balance) = false) as -> by lia. simpl.
    split; [by destruct (env _ (ContractSymbol _))|]. by intros e ->.
Qed.

(** With 100 on the account and 150 needed, the symbol is not asked
    for. *)
Lemma balance_validation_calls_witness :
  run (SampleEnv.answering 100 SampleEnv.okResponse)
    (Utils.validateTokenBalance 150
       {| contractAddress := "0xA0b8"; contractAbi := erc20Abi;
          contractRunner := RunSigner Sample.alice |}
       "0xAlice" Sample.ethereum) =
    ([Log (ContractBalanceOf
             {| contractAddress := "0xA0b8"; contractAbi := erc20Abi;
                contractRunner := RunSigner Sample.alice |} "0xAlice")],
     Thrown (Err "Insufficient funds for account: 0xAlice on chain 1")).
Proof.
  destruct (balance_validation_calls (SampleEnv.answering 100 SampleEnv.okResponse)
              {| providerUrl := "https://eth.example" |}
              {| contractAddress := "0xA0b8"; contractAbi := erc20Abi;
                 contractRunner := RunSigner Sample.alice |}
              "0xAlice" Sample.ethereum 150) as (_ & _ & Hshort & _).
  apply (Hshort 100); [reflexivity | lia].
Defined.

(** X17: with overrides, the keys of the gas parameters are those of the
    overrides together with the derived ones, so overrides may add keys
    that were not derived; empty overrides change nothing; and the gas
    limit of the request is in the result unless the overrides replace
    it. *)
Theorem getGasData_overrides_merge (transactionRequest : SquidData) (overrides : JsObj) :
  dom (Utils.getGasData transactionRequest (Some overrides)) =
    dom overrides ∪ dom (Utils.getGasData transactionRequest None) ∧
  Utils.getGasData transactionRequest (Some ∅) = Utils.getGasData transactionRequest None ∧
  (overrides !! "gasLimit" = None →
     Utils.getGasData transactionRequest (Some overrides) !! "gasLimit" =
       Some (gasLimit transactionRequest)).
Proof.
  unfold Utils.getGasData. cbn zeta. split; [|split].
  - apply dom_union_L.
  - apply (left_id_L ∅ (∪)).
  - intros Hnone. rewrite lookup_union, Hnone, (left_id_L None _).
    by destruct (truthy _).
Qed.

Lemma getGasData_overrides_witness :
  Utils.getGasData Sample.legacyTx (Some {[ "nonce" := JNum 3 ]}) !! "gasLimit" =
    Some (JStr "500000").
Proof.
  destruct (getGasData_overrides_merge Sample.legacyTx {[ "nonce" := JNum 3 ]})
    as (_ & _ & Hlimit).
  apply Hlimit. reflexivity.
Defined.

(** ** More on the route normaliser *)

Section MapResultMore.
Context {A B : Type} (f : A → Result B).

Lemma mapM_Thrown_inv (l : list A) (e : Error) :
  mapM f l = Thrown e → ∃ x, x ∈ l ∧ f x = Thrown e.
Proof.
  induction l as [|x l IH]; simpl; [done|].
  destruct (f x) as [y|e'] eqn:Hx; simpl.
  - destruct (mapM f l) as [k|e'']; simpl; [done|].
    intros [= ->]. destruct (IH eq_refl) as (x' & Hin & Hx').
    exists x'. split; [by apply elem_of_cons; right|done].
  - intros [= ->]. exists x. split; [by apply elem_of_cons; left|done].
Qed.

Lemma mapM_Thrown_intro (l : list A) (x : A) (e : Error) :
  x ∈ l → f x = Thrown e → ∃ e', mapM f l = Thrown e'.
Proof.
  intros Hin Hx. induction l as [|y l IH]; [by apply elem_of_nil in Hin|].
  simpl. destruct (f y) as [b|e'] eqn:Hy; simpl; [|by eexists].
  apply elem_of_cons in Hin as [->|Hin]; [congruence|].
  destruct (IH Hin) as [e' ->]. simpl. by eexists.
Qed.

Lemma mapM_app_Result (l1 l2 : list A) :
  mapM f (l1 ++ l2) = (k1 ← mapM f l1; k2 ← mapM f l2; mret (k1 ++ k2)%list).
Proof.
  induction l1 as [|x l1 IH]; simpl.
  - by destruct (mapM f l2).
  - destruct (f x) as [y|e]; simpl; [|done]. rewrite IH.
    destruct (mapM f l1) as [k1|e]; simpl; [|done].
    by destruct (mapM f l2).
Qed.

End MapResultMore.

Section ParseRouteProperties.
Variable removeEmpty : JsObj → JsObj.

Lemma parseCall_Thrown (call : JsObj) (e : Error) :
  parseCall removeEmpty call = Thrown e ↔
  get call "type" = JStr CallType.SWAP ∧ destructure (get call "dex") = Thrown e.
Proof.
  unfold parseCall. cbn zeta.
  destruct (isStr (get call "type") CallType.BRIDGE) eqn:Hb.
  { apply isStr_eq in Hb. rewrite Hb. split; [done|]. by intros [[=] _]. }
  destruct (isStr (get call "type") CallType.SWAP) eqn:Hs.
  - apply isStr_eq in Hs. unfold parseSwap.
    destruct (destructure (get call "dex")); simpl; naive_solver.
  - assert (get call "type" ≠ JStr CallType.SWAP) as Hne.
    { intros Heq. apply isStr_eq in Heq. congruence. }
    destruct (isStr (get call "type") CallType.CUSTOM); naive_solver.
Qed.

Lemma destructure_Thrown (v : JsVal) (e : Error) :
  destructure v = Thrown e → (v = JUndefined ∨ v = JNull) ∧ ∃ msg, e = TypeError msg.
Proof. destruct v; simpl; intros [= <-]; eauto. Qed.

Lemma destructure_undefined_or_null (v : JsVal) :
  v = JUndefined ∨ v = JNull → is_TypeError (destructure v).
Proof. intros [->| ->]; by eexists. Qed.

Lemma parseRoute_Thrown_TypeError (data : list JsObj) (e : Error) :
  parseRoute removeEmpty data = Thrown e → ∃ msg, e = TypeError msg.
Proof.
  unfold parseRoute. intros He. apply mapM_Thrown_inv in He as (call & _ & Hcall).
  apply parseCall_Thrown in Hcall as [_ Hdex].
  by apply destructure_Thrown in Hdex as [_ ?].
Qed.

Lemma parseRoute_Thrown_iff (data : list JsObj) :
  (∃ e, parseRoute removeEmpty data = Thrown e) ↔
  ∃ call, call ∈ data ∧ get call "type" = JStr CallType.SWAP ∧
          (get call "dex" = JUndefined ∨ get call "dex" = JNull).
Proof.
  unfold parseRoute. split.
  - intros [e He]. apply mapM_Thrown_inv in He as (call & Hin & Hcall).
    apply list_elem_of_In, filter_In in Hin as [Hin _].
    apply parseCall_Thrown in Hcall as [Hswap Hdex].
    apply destructure_Thrown in Hdex as [Hdex _].
    exists call. by rewrite list_elem_of_In.
  - intros (call & Hin & Hswap & Hdex).
    destruct (destructure_undefined_or_null _ Hdex) as [msg Hmsg].
    apply (mapM_Thrown_intro _ _ call (TypeError msg)).
    + apply list_elem_of_In, filter_In. split; [by apply list_elem_of_In|].
      apply (isRetained_tag removeEmpty). auto.
    + apply parseCall_Thrown. done.
Qed.

(** X18: [parseRoute] either returns a plan or throws a [TypeError], and
    it throws exactly when some raw call tagged Swap has a [dex] that is
    [undefined] or [null]; calls with unknown tags never make it
    throw. *)
Theorem parseRoute_throws_iff_swap_without_dex (data : list JsObj) :
  (∀ e, parseRoute removeEmpty data = Thrown e → ∃ msg, e = TypeError msg) ∧
  ((∃ e, parseRoute removeEmpty data = Thrown e) ↔
   ∃ call, call ∈ data ∧ get call "type" = JStr CallType.SWAP ∧
           (get call "dex" = JUndefined ∨ get call "dex" = JNull)).
Proof.
  split.
  - intros e. apply parseRoute_Thrown_TypeError.
  - apply parseRoute_Thrown_iff.
Qed.

(** X19: the plan of two raw lists one after the other is the plan of
    the first followed by the plan of the second, and an error in the
    first comes before one in the second; the empty list gives the empty
    plan; and a plan is never longer than the raw list. *)
Theorem parseRoute_app (data1 data2 : list JsObj) :
  parseRoute removeEmpty (data1 ++ data2) =
    (plan1 ← parseRoute removeEmpty data1;
     plan2 ← parseRoute removeEmpty data2;
     mret (plan1 ++ plan2)%list) ∧
  parseRoute removeEmpty [] = Ok [] ∧
  (∀ plan, parseRoute removeEmpty data1 = Ok plan → (length plan ≤ length data1)%nat).
Proof.
  unfold parseRoute. split; [|split].
  - by rewrite List.filter_app, mapM_app_Result.
  - reflexivity.
  - intros plan Hplan. apply mapM_Ok_Forall2, Forall2_length in Hplan.
    rewrite <- Hplan. apply List.filter_length_le.
Qed.

(** X20: a bridge entry of the plan has exactly the eight fields type,
    fromToken, toToken, fromAmount, toAmount, toAmountMin, exchangeRate
    and priceImpact, its tag is Bridge whatever the raw call said, the
    other seven are the raw call's ([undefined] where it has none) and
    are not passed through [removeEmpty]; parsing a parsed bridge again
    changes nothing. *)
Theorem parseBridge_shape (data : JsObj) :
  dom (parseBridge data) =
    ({[ "type"; "fromToken"; "toToken"; "fromAmount"; "toAmount"; "toAmountMin";
        "exchangeRate"; "priceImpact" ]} : gset string) ∧
  parseBridge data !! "type" = Some (JStr CallType.BRIDGE) ∧
  (∀ k, k ∈ ["fromToken"; "toToken"; "fromAmount"; "toAmount"; "toAmountMin";
             "exchangeRate"; "priceImpact"] →
     parseBridge data !! k = Some (get data k)) ∧
  parseBridge (parseBridge data) = parseBridge data ∧
  (get data "type" = JStr CallType.BRIDGE →
     parseCall removeEmpty data = Ok (JObj (parseBridge data))).
Proof.
  split; [done|]. split; [done|]. split; [|split].
  - intros k Hk. repeat (apply elem_of_cons in Hk as [->|Hk]); try done.
    by apply elem_of_nil in Hk.
  - reflexivity.
  - intros Htype. unfold parseCall. cbn zeta. by rewrite Htype.
Qed.

End ParseRouteProperties.

(** A swap without [dex] makes the whole plan fail, even next to a
    well-formed bridge. *)
Lemma parseRoute_throws_witness :
  ∃ e, parseRoute dropUndefined
         [SampleCalls.bridge; {[ "type" := JStr "SWAP"; "fromAmount" := JStr "1" ]}] =
       Thrown e.
Proof.
  apply (parseRoute_throws_iff_swap_without_dex dropUndefined).
  exists {[ "type" := JStr "SWAP"; "fromAmount" := JStr "1" ]}.
  split; [|split; [reflexivity|left; reflexivity]].
  apply elem_of_cons; right. apply elem_of_cons; by left.
Defined.

Lemma parseRoute_app_witness :
  parseRoute dropUndefined
    ([SampleCalls.bridge; SampleCalls.fee] ++ [SampleCalls.custom]) =
    (plan1 ← parseRoute dropUndefined [SampleCalls.bridge; SampleCalls.fee];
     plan2 ← parseRoute dropUndefined [SampleCalls.custom];
     mret (plan1 ++ plan2)%list).
Proof.
  destruct (parseRoute_app dropUndefined [SampleCalls.bridge; SampleCalls.fee]
              [SampleCalls.custom]) as (Happ & _ & _).
  exact Happ.
Defined.

Lemma parseBridge_witness :
  parseCall dropUndefined SampleCalls.bridge = Ok (JObj (parseBridge SampleCalls.bridge)).
Proof.
  destruct (parseBridge_shape dropUndefined SampleCalls.bridge) as (_ & _ & _ & _ & Hcall).
  apply Hcall. reflexivity.
Defined.

(** ** Token data, transaction requests and costs *)

Lemma parseTokenData_is_Ok (data : JsVal) :
  is_Ok (parseTokenData data) ↔ data ≠ JUndefined ∧ data ≠ JNull.
Proof.
  unfold parseTokenData, is_Ok.
  destruct data; simpl; split; try (by intros [? [=]]); try (by intros [? ?]); eauto.
Qed.

Lemma parseTransactionRequest_is_Ok_iff (request : JsVal) :
  is_Ok (parseTransactionRequest request) ↔ request ≠ JUndefined ∧ request ≠ JNull.
Proof.
  unfold parseTransactionRequest, is_Ok.
  destruct request; simpl; split; try (by intros [? [=]]); try (by intros [? ?]); eauto.
Qed.

(** X21: [parseTokenData] throws a [TypeError] exactly when its argument
    is [undefined] or [null]; otherwise it returns an object with exactly
    the seven fields chainId, address, name, symbol, decimals, logoURI
    and coingeckoId, each the argument's property of that name
    ([undefined] when it has none), every other property being dropped;
    and parsing the result again returns it unchanged. *)
Theorem parseTokenData_projection (data : JsVal) :
  (is_TypeError (parseTokenData data) ↔ data = JUndefined ∨ data = JNull) ∧
  (is_Ok (parseTokenData data) ↔ data ≠ JUndefined ∧ data ≠ JNull) ∧
  (∀ token, parseTokenData data = Ok token →
     dom token = ({[ "chainId"; "address"; "name"; "symbol"; "decimals"; "logoURI";
                     "coingeckoId" ]} : gset string) ∧
     (∀ k, k ∈ dom token → token !! k = Some (getProp data k)) ∧
     parseTokenData (JObj token) = Ok token).
Proof.
  split; [|split; [apply parseTokenData_is_Ok|]]; unfold parseTokenData, is_TypeError.
  - destruct data; simpl; split; try (by intros [msg [=]]); try (by intros [[=]|[=]]);
      eauto.
  - intros token Htoken.
    assert (destructure data = Ok data) as Hd.
    { destruct data; simpl in *; done. }
    rewrite Hd in Htoken. simpl in Htoken. injection Htoken as <-.
    split; [done|]. split; [|reflexivity].
    intros k Hk. rewrite !dom_insert_L, dom_singleton_L in Hk.
    rewrite !elem_of_union, !elem_of_singleton in Hk.
    destruct Hk as [->|[->|[->|[->|[->|[->| ->]]]]]]; reflexivity.
Qed.

(** X22: [parseTransactionRequest] throws a [TypeError] exactly when the
    request is [undefined] or [null]; otherwise it returns an object with
    exactly the nine fields routeType, targetAddress, data, value,
    gasLimit, gasPrice, gasCosts, maxFeePerGas and maxPriorityFeePerGas
    of the request, and parsing the result again returns it unchanged. *)
Theorem parseTransactionRequest_projection (request : JsVal) :
  (is_TypeError (parseTransactionRequest request) ↔
     request = JUndefined ∨ request = JNull) ∧
  (is_Ok (parseTransactionRequest request) ↔
     request ≠ JUndefined ∧ request ≠ JNull) ∧
  (∀ parsed, parseTransactionRequest request = Ok parsed →
     dom parsed = ({[ "routeType"; "targetAddress"; "data"; "value"; "gasLimit";
                      "gasPrice"; "gasCosts"; "maxFeePerGas";
                      "maxPriorityFeePerGas" ]} : gset string) ∧
     (∀ k, k ∈ dom parsed → parsed !! k = Some (getProp request k)) ∧
     parseTransactionRequest (JObj parsed) = Ok parsed).
Proof.
  split; [|split; [apply parseTransactionRequest_is_Ok_iff|]];
    unfold parseTransactionRequest, is_TypeError.
  - destruct request; simpl; split; try (by intros [msg [=]]);
      try (by intros [[=]|[=]]); eauto.
  - intros parsed Hparsed.
    assert (destructure request = Ok request) as Hd.
    { destruct request; simpl in *; done. }
    rewrite Hd in Hparsed. simpl in Hparsed. injection Hparsed as <-.
    split; [done|]. split; [|reflexivity].
    intros k Hk. rewrite !dom_insert_L, dom_singleton_L in Hk.
    rewrite !elem_of_union, !elem_of_singleton in Hk.
    destruct Hk as [->|[->|[->|[->|[->|[->|[->|[->| ->]]]]]]]]; reflexivity.
Qed.

(** The price is dropped, the missing fields are [undefined], and the
    result is a fixed point. *)
Lemma parseTokenData_witness :
  parseTokenData
    (JObj {[ "chainId" := JUndefined; "address" := JStr "0xA0b8"; "name" := JUndefined;
             "symbol" := JStr "USDC"; "decimals" := JUndefined; "logoURI" := JUndefined;
             "coingeckoId" := JUndefined ]}) =
    Ok {[ "chainId" := JUndefined; "address" := JStr "0xA0b8"; "name" := JUndefined;
          "symbol" := JStr "USDC"; "decimals" := JUndefined; "logoURI" := JUndefined;
          "coingeckoId" := JUndefined ]}.
Proof.
  destruct (parseTokenData_projection
              (JObj {[ "address" := JStr "0xA0b8"; "symbol" := JStr "USDC";
                       "usdPrice" := JNum 1 ]})) as (_ & _ & Hproj).
  destruct (Hproj {[ "chainId" := JUndefined; "address" := JStr "0xA0b8";
                     "name" := JUndefined; "symbol" := JStr "USDC";
                     "decimals" := JUndefined; "logoURI" := JUndefined;
                     "coingeckoId" := JUndefined ]}) as (_ & _ & Hidem).
  - vm_compute. reflexivity.
  - exact Hidem.
Defined.

(** A request with a target and call data is parsed; the field that is
    not one of the nine is dropped, the missing ones are [undefined], and
    the result is a fixed point; [undefined] is not parsed. *)
Lemma parseTransactionRequest_witness :
  is_Ok (parseTransactionRequest
           (JObj {[ "targetAddress" := JStr "0xRouter"; "data" := JStr "0x00";
                    "nonce" := JNum 7 ]})) ∧
  parseTransactionRequest
    (JObj {[ "routeType" := JUndefined; "targetAddress" := JStr "0xRouter";
             "data" := JStr "0x00"; "value" := JUndefined; "gasLimit" := JUndefined;
             "gasPrice" := JUndefined; "gasCosts" := JUndefined;
             "maxFeePerGas" := JUndefined; "maxPriorityFeePerGas" := JUndefined ]}) =
    Ok {[ "routeType" := JUndefined; "targetAddress" := JStr "0xRouter";
          "data" := JStr "0x00"; "value" := JUndefined; "gasLimit" := JUndefined;
          "gasPrice" := JUndefined; "gasCosts" := JUndefined;
          "maxFeePerGas" := JUndefined; "maxPriorityFeePerGas" := JUndefined ]} ∧
  is_TypeError (parseTransactionRequest JUndefined).
Proof.
  destruct (parseTransactionRequest_projection
              (JObj {[ "targetAddress" := JStr "0xRouter"; "data" := JStr "0x00";
                       "nonce" := JNum 7 ]})) as (_ & Hreturns & Hproj).
  split; [apply Hreturns; split; discriminate|]. split.
  - destruct (Hproj {[ "routeType" := JUndefined; "targetAddress" := JStr "0xRouter";
                       "data" := JStr "0x00"; "value" := JUndefined;
                       "gasLimit" := JUndefined; "gasPrice" := JUndefined;
                       "gasCosts" := JUndefined; "maxFeePerGas" := JUndefined;
                       "maxPriorityFeePerGas" := JUndefined ]}) as (_ & _ & Hidem).
    + vm_compute. reflexivity.
    + exact Hidem.
  - apply (parseTransactionRequest_projection JUndefined). by left.
Defined.

Lemma mapM_is_Ok {A B} (f : A → Result B) (l : list A) :
  is_Ok (mapM f l) ↔ Forall (λ x, is_Ok (f x)) l.
Proof.
  split.
  - intros [k Hk]. apply mapM_Ok_Forall2 in Hk.
    induction Hk; constructor; [by eexists|done].
  - intros Hall. by apply mapM_Ok_total.
Qed.

Lemma parseFeeCostItem_is_Ok (item : JsObj) :
  is_Ok (parseFeeCostItem item) ↔
  get item "token" ≠ JUndefined ∧ get item "token" ≠ JNull.
Proof.
  rewrite <- parseTokenData_is_Ok. unfold parseFeeCostItem, is_Ok.
  destruct (parseTokenData _); simpl; split; intros [? ?]; by eauto.
Qed.

Lemma parseGasCostItem_is_Ok (item : JsObj) :
  is_Ok (parseGasCostItem item) ↔
  get item "token" ≠ JUndefined ∧ get item "token" ≠ JNull.
Proof.
  rewrite <- parseTokenData_is_Ok. unfold parseGasCostItem, is_Ok.
  destruct (parseTokenData _); simpl; split; intros [? ?]; by eauto.
Qed.

Lemma parseFeeCost_is_Ok (data : list JsObj) :
  is_Ok (parseFeeCost (Some data)) ↔
  Forall (λ item, get item "token" ≠ JUndefined ∧ get item "token" ≠ JNull) data.
Proof.
  unfold parseFeeCost. simpl. rewrite mapM_is_Ok.
  split; intros Hall; (eapply Forall_impl; [exact Hall|]); intros item;
    apply parseFeeCostItem_is_Ok.
Qed.

Lemma parseGasCost_is_Ok (data : list JsObj) :
  is_Ok (parseGasCost (Some data)) ↔
  Forall (λ item, get item "token" ≠ JUndefined ∧ get item "token" ≠ JNull) data.
Proof.
  unfold parseGasCost. simpl. rewrite mapM_is_Ok.
  split; intros Hall; (eapply Forall_impl; [exact Hall|]); intros item;
    apply parseGasCostItem_is_Ok.
Qed.



(** ** The whole route response *)

Lemma is_Ok_not_Thrown {A} (r : Result A) : is_Ok r ↔ ¬ ∃ e, r = Thrown e.
Proof.
  destruct r as [a|e]; split.
  - intros _ [e [=]].
  - intros _. by exists a.
  - intros [a [=]].
  - intros Hno. destruct Hno. by exists e.
Qed.

Lemma destructure_is_Ok (v : JsVal) : is_Ok (destructure v) ↔ present v.
Proof.
  unfold is_Ok, present.
  destruct v; simpl; split; try (by intros [? [=]]); try (by intros [? ?]); eauto.
Qed.

Lemma present_truthy (v : JsVal) : truthy v = true → present v.
Proof. by destruct v. Qed.

Section RouteResponseProperties.
Variable removeEmpty : JsObj → JsObj.

Lemma parseRoute_is_Ok (data : list JsObj) :
  is_Ok (parseRoute removeEmpty data) ↔ swapsHaveDex data.
Proof.
  rewrite is_Ok_not_Thrown.
  rewrite (parseRoute_Thrown_iff removeEmpty data). unfold swapsHaveDex, present. split.
  - intros Hno call Hin Hswap.
    split; intros Hdex; apply Hno; exists call; auto.
  - intros Hall (call & Hin & Hswap & Hdex).
    destruct (Hall call Hin Hswap) as [Hu Hn]. by destruct Hdex.
Qed.

Lemma parseEstimate_is_Ok (data : option RawEstimate.t) :
  is_Ok (parseEstimate removeEmpty data) ↔ wellFormedEstimate data.
Proof.
  unfold wellFormedEstimate. split.
  - intros [est Hest]. unfold parseEstimate, parseOptimalRoute in Hest.
    destruct data as [d|]; simpl in Hest; [|done].
    destruct (RawEstimate.route d) as [route|] eqn:Hr; simpl in Hest; [|done].
    destruct (RawOptimalRoute.fromChain route) as [from|] eqn:Hfrom; simpl in Hest; [|done].
    destruct (parseRoute removeEmpty from) as [p1|] eqn:H1; simpl in Hest; [|done].
    destruct (RawOptimalRoute.toChain route) as [to|] eqn:Hto; simpl in Hest; [|done].
    destruct (parseRoute removeEmpty to) as [p2|] eqn:H2; simpl in Hest; [|done].
    destruct (RawEstimate.feeCosts d) as [fees|] eqn:Hf; simpl in Hest; [|done].
    destruct (parseFeeCost (Some fees)) as [f|] eqn:H3; simpl in Hest; [|done].
    destruct (RawEstimate.gasCosts d) as [gas|] eqn:Hg; simpl in Hest; [|done].
    destruct (parseGasCost (Some gas)) as [g|] eqn:H4; simpl in Hest; [|done].
    exists d, route, from, to, fees, gas.
    pose proof (parseFeeCost_is_Ok fees) as Hfee.
    pose proof (parseGasCost_is_Ok gas) as Hgas.
    do 6 (split; [done|]). split; [|split; [|split]].
    + apply parseRoute_is_Ok. by eexists.
    + apply parseRoute_is_Ok. by eexists.
    + apply Hfee. exists f. exact H3.
    + apply Hgas. exists g. exact H4.
  - intros (d & route & from & to & fees & gas & -> & Hr & Hfrom & Hto & Hf & Hg &
            Hs1 & Hs2 & Hi1 & Hi2).
    apply parseRoute_is_Ok in Hs1 as [p1 Hp1]. apply parseRoute_is_Ok in Hs2 as [p2 Hp2].
    pose proof (parseFeeCost_is_Ok fees) as Hfee.
    pose proof (parseGasCost_is_Ok gas) as Hgas.
    apply Hfee in Hi1 as [f Hf']. apply Hgas in Hi2 as [g Hg'].
    unfold parseEstimate, parseOptimalRoute. simpl.
    rewrite Hr. simpl. rewrite Hfrom. simpl. rewrite Hp1. simpl.
    rewrite Hto. simpl. rewrite Hp2. simpl.
    rewrite Hf, Hf'. simpl. rewrite Hg, Hg'. simpl. by eexists.
Qed.

Lemma destructure_Ok_eq (v d : JsVal) : destructure v = Ok d → d = v.
Proof. destruct v; simpl; congruence. Qed.

Lemma parseTokenData_Thrown (v : JsVal) (e : Error) :
  parseTokenData v = Thrown e → ∃ msg, e = TypeError msg.
Proof.
  unfold parseTokenData. destruct (destructure v) as [d|e'] eqn:Hd; simpl; [done|].
  intros [= <-]. by apply destructure_Thrown in Hd as [_ ?].
Qed.

Lemma parseCustomContractCall_truthy (v : JsVal) :
  truthy v = true → is_Ok (parseCustomContractCall removeEmpty v).
Proof.
  intros Ht. apply present_truthy, destructure_is_Ok in Ht as [d Hd].
  unfold parseCustomContractCall. rewrite Hd. simpl. by eexists.
Qed.

Lemma parseParams_is_Ok_iff (data : JsVal) :
  is_Ok (parseParams removeEmpty data) ↔ wellFormedParams data.
Proof.
  unfold wellFormedParams. split.
  - intros [p Hp]. unfold parseParams in Hp.
    destruct (destructure data) as [d|] eqn:Hd; simpl in Hp; [|done].
    pose proof (destructure_Ok_eq _ _ Hd) as ->.
    destruct (parseTokenData (getProp data "fromToken")) as [t1|] eqn:H1;
      simpl in Hp; [|done].
    destruct (parseTokenData (getProp data "toToken")) as [t2|] eqn:H2;
      simpl in Hp; [|done].
    split; [apply destructure_is_Ok; by eexists|].
    split; apply parseTokenData_is_Ok; by eexists.
  - intros (Hp & Hf & Ht).
    apply destructure_is_Ok in Hp as [d Hd].
    pose proof (destructure_Ok_eq _ _ Hd) as ->.
    apply parseTokenData_is_Ok in Hf as [t1 H1].
    apply parseTokenData_is_Ok in Ht as [t2 H2].
    unfold parseParams. rewrite Hd. simpl. rewrite H1. simpl. rewrite H2. simpl.
    destruct (truthy (getProp data "customContractCalls")) eqn:Hc; [|by eexists].
    destruct (parseCustomContractCall_truthy _ Hc) as [c ->]. simpl. by eexists.
Qed.

(** X24: [parseParams] returns exactly when its argument and the
    [fromToken] and [toToken] in it are neither [undefined] nor [null],
    and throws a [TypeError] otherwise; [customContractCalls], present or
    not, never makes it throw. *)
Theorem parseParams_is_Ok (data : JsVal) :
  (is_Ok (parseParams removeEmpty data) ↔ wellFormedParams data) ∧
  (∀ e, parseParams removeEmpty data = Thrown e → ∃ msg, e = TypeError msg).
Proof.
  split; [apply parseParams_is_Ok_iff|].
  intros e He. unfold parseParams in He.
  destruct (destructure data) as [d|e0] eqn:Hd; simpl in He.
    2:{ injection He as <-. by apply destructure_Thrown in Hd as [_ ?]. }
    pose proof (destructure_Ok_eq _ _ Hd) as ->.
    destruct (parseTokenData (getProp data "fromToken")) as [t1|e1] eqn:H1; simpl in He.
    2:{ injection He as <-. by eapply parseTokenData_Thrown. }
    destruct (parseTokenData (getProp data "toToken")) as [t2|e2] eqn:H2; simpl in He.
    2:{ injection He as <-. by eapply parseTokenData_Thrown. }
    destruct (truthy (getProp data "customContractCalls")) eqn:Hc; [|done].
    destruct (parseCustomContractCall_truthy _ Hc) as [c Hcc].
    rewrite Hcc in He. done.
Qed.

(** X25: [parseRouteResponse] returns exactly when the estimate is there
    with its route, the two plans [fromChain] and [toChain] of the route,
    its fee costs and its gas costs, every call tagged Swap in the two
    raw plans has a [dex], every cost item has a [token], the transaction
    request is neither [undefined] nor [null], and the parameters are
    there with both tokens.  In particular a response without a
    transaction request is not parsed, and neither is one whose route
    lacks a plan, such as [route: {}]: the parser throws. *)
Theorem parseRouteResponse_is_Ok (response : RawRouteResponse.t) :
  (is_Ok (parseRouteResponse removeEmpty response) ↔
     wellFormedEstimate (RawRouteResponse.estimate response) ∧
     present (RawRouteResponse.transactionRequest response) ∧
     wellFormedParams (RawRouteResponse.params response)) ∧
  (RawRouteResponse.transactionRequest response = JUndefined →
     ∃ e, parseRouteResponse removeEmpty response = Thrown e) ∧
  (∀ d route,
     RawRouteResponse.estimate response = Some d →
     RawEstimate.route d = Some route →
     RawOptimalRoute.fromChain route = None ∨ RawOptimalRoute.toChain route = None →
     ∃ e, parseRouteResponse removeEmpty response = Thrown e).
Proof.
  assert (is_Ok (parseRouteResponse removeEmpty response) ↔
     wellFormedEstimate (RawRouteResponse.estimate response) ∧
     present (RawRouteResponse.transactionRequest response) ∧
     wellFormedParams (RawRouteResponse.params response)) as Hiff.
  { rewrite <- parseEstimate_is_Ok.
    rewrite <- (parseParams_is_Ok_iff (RawRouteResponse.params response)).
    rewrite <- destructure_is_Ok. unfold parseRouteResponse, parseTransactionRequest.
    split.
    - intros [p Hp].
      destruct (parseEstimate _ _) as [est|]; simpl in Hp; [|done].
      destruct (destructure _) as [r|]; simpl in Hp; [|done].
      destruct (parseParams _ _) as [q|]; simpl in Hp; [|done].
      repeat split; by eexists.
    - intros ([est ->] & [r ->] & [q ->]). simpl. by eexists. }
  split; [exact Hiff|]. split.
  - intros Hundef.
    destruct (parseRouteResponse removeEmpty response) as [p|e] eqn:Hp; [|by eexists].
    assert (is_Ok (Ok p : Result ParsedRoute.t)) as Hok by (by eexists).
    apply Hiff in Hok as (_ & [Hpresent _] & _). done.
  - intros d route Hd Hroute Hplan.
    destruct (parseRouteResponse removeEmpty response) as [p|e] eqn:Hp; [|by eexists].
    assert (is_Ok (Ok p : Result ParsedRoute.t)) as Hok by (by eexists).
    apply Hiff in Hok as ((d' & route' & from & to & _ & _ & Hd' & Hr' & Hfrom & Hto & _) & _).
    rewrite Hd in Hd'. injection Hd' as <-.
    rewrite Hroute in Hr'. injection Hr' as <-.
    destruct Hplan as [Hnone|Hnone]; congruence.
Qed.

End RouteResponseProperties.

Lemma parseParams_witness :
  is_Ok (parseParams dropUndefined SampleResponse.params).
Proof.
  apply (parseParams_is_Ok dropUndefined SampleResponse.params).
  repeat split; discriminate.
Defined.

(** The sample response is parsed; the same response without its
    transaction request is not, and neither is the one with [route: {}]. *)
Lemma parseRouteResponse_witness :
  is_Ok (parseRouteResponse dropUndefined SampleResponse.response) ∧
  (∃ e, parseRouteResponse dropUndefined SampleResponse.withoutTransactionRequest
        = Thrown e) ∧
  (∃ e, parseRouteResponse dropUndefined SampleResponse.withEmptyRoute = Thrown e).
Proof.
  split; [|split].
  - apply (parseRouteResponse_is_Ok dropUndefined SampleResponse.response).
    split; [|split; [split; discriminate|repeat split; discriminate]].
    eexists _, _, _, _, _, _. do 6 (split; [reflexivity|]). split; [|split; [|split]].
    + intros call Hin Hswap.
      repeat (apply elem_of_cons in Hin as [->|Hin]); try discriminate Hswap.
      * split; discriminate.
      * by apply elem_of_nil in Hin.
    + intros call Hin Hswap.
      repeat (apply elem_of_cons in Hin as [->|Hin]); try discriminate Hswap.
      by apply elem_of_nil in Hin.
    + repeat constructor; discriminate.
    + constructor.
  - apply (parseRouteResponse_is_Ok dropUndefined SampleResponse.withoutTransactionRequest).
    reflexivity.
  - eapply (parseRouteResponse_is_Ok dropUndefined SampleResponse.withEmptyRoute);
      [reflexivity|reflexivity|by left].
Defined.

(** ** Construction and configuration *)

Section ConstructionProperties.
Context `{Construction}.



End ConstructionProperties.

Section Lifecycle.
Context `{Construction} `{TokensChains} `{ChainUtils}.

Lemma constructor_starts_uninitialized (config : option JsObj) (this : SquidConfig.t) :
  SquidConfig.constructor config = Ok this →
  Squid.initialized (SquidConfig.sdk this) = false.
Proof.
  unfold SquidConfig.constructor. cbn zeta.
  destruct (negb (truthy _)); [done|]. by intros [= <-].
Qed.

Lemma init_then_getRoute_trace (env : Env) (this : Squid.t)
    (response : SdkInfoResponse.t) (params : RouteRequest.t) :
  env _ (HttpGet (Squid.httpInstance this) "v2/sdk-info") = Ok response →
  SdkInfoResponse.status response = 200 →
  (run env (ready ← Squid.init this; Squid.getRoute ready params)).1 =
    [Log (HttpGet (Squid.httpInstance this) "v2/sdk-info");
     Log (HttpPost (Squid.httpInstance this) "v2/route" params)].
Proof.
  intros Hget Hstatus. unfold Squid.init. simpl. rewrite Hget, Hstatus. simpl.
  destruct (env _ (HttpPost _ _ _)) as [r|e]; [|done].
  by destruct (negb (HttpResponse.status r =? 200)).
Qed.

(** X28: on a newly constructed SDK every operation that starts with
    [validateInit] fails at once with [NotInitializedError], also after
    [setConfig]; once [init] has been answered with status 200, a
    [getRoute] on the resulting SDK reaches the routing service through
    the adapter the constructor built. *)
Theorem constructed_sdk_lifecycle (env : Env) (config : option JsObj)
    (this : SquidConfig.t) (c : PublicCall) (config' : JsObj)
    (response : SdkInfoResponse.t) (params : RouteRequest.t) :
  SquidConfig.constructor config = Ok this →
  validatesInit c = true →
  env _ (HttpGet (Squid.httpInstance (SquidConfig.sdk this)) "v2/sdk-info") = Ok response →
  SdkInfoResponse.status response = 200 →
  failedAtOnce NotInitializedError (runCall env (SquidConfig.sdk this) c) ∧
  failedAtOnce NotInitializedError
    (runCall env (SquidConfig.sdk (SquidConfig.setConfig this config')) c) ∧
  (run env (ready ← Squid.init (SquidConfig.sdk this); Squid.getRoute ready params)).1 =
    [Log (HttpGet (Squid.httpInstance (SquidConfig.sdk this)) "v2/sdk-info");
     Log (HttpPost (Squid.httpInstance (SquidConfig.sdk this)) "v2/route" params)].
Proof.
  intros Hnew Hc Hget Hstatus.
  pose proof (constructor_starts_uninitialized config this Hnew) as Hinit.
  split; [by apply gated_uninitialized|]. split.
  - by apply gated_uninitialized.
  - by apply (init_then_getRoute_trace env _ response).
Qed.

End Lifecycle.


(** An SDK constructed for integrator "app" rejects [getRoute] until it
    is initialized. *)
Lemma constructed_sdk_witness :
  failedAtOnce NotInitializedError
    (sampleRun sampleEnv (SquidConfig.sdk constructedApp)
       (CallGetRoute (Sample.request (IdNum 1) "0xA0b8"))).
Proof.
  eapply (constructed_sdk_lifecycle (H := sampleConstruction) (H0 := metadataStore)
            (H1 := sampleChainUtils) sampleEnv
            (Some {[ "integratorId" := JStr "app" ]}) constructedApp
            (CallGetRoute (Sample.request (IdNum 1) "0xA0b8")) ∅ Sample.sdkInfo
            (Sample.request (IdNum 1) "0xA0b8")).
  - vm_compute. reflexivity.
  - reflexivity.
  - reflexivity.
  - reflexivity.
Defined.
